(** * Swap-path recommendation and execution: a shallow embedding

    The development follows the Python sources:
    - [query_engine.py]  : [parse_swap_query], [get_best_swap_path]
    - [vector_store.py]  : [get_optimal_swap_paths]
    - [data_fetcher.py]  : [make_alchemy_request]
    - [swap_executor.py] : [approve_token], [generate_swap_transaction],
                           [execute_swap]

    Python values are modelled as follows.  A [str] is a [string] of
    ASCII characters (only [a]-[z] and [A]-[Z] have case).  An [int] is a
    [Z].  A [float] is an IEEE-754 binary64 number, computed with the
    Standard Library's [SpecFloat] (round to nearest, ties to even).  A
    raised exception is the [Raise] constructor of [result].  Calls to
    network collaborators are answered by records of functions and are
    logged as events, so that the order of the calls can be stated. *)

From Stdlib Require Import ZArith QArith Qround List String Ascii Bool Lia.
From Stdlib Require Import Sorted Permutation SpecFloat.
Import ListNotations.

Set Warnings "-register-all".

Local Open Scope string_scope.
Local Open Scope Z_scope.

(** ** Exceptions and results *)

Inductive exn : Type :=
| ValueError (msg : string)
| OverflowError (msg : string)
| ZeroDivisionError (msg : string)
| InvalidOperation
| RecursionError
| JSONDecodeError (msg : string)
| TimeExhausted
| CollaboratorError (msg : string).

Inductive result (A : Type) : Type :=
| Return (a : A)
| Raise (e : exn).

Arguments Return {A} a.
Arguments Raise {A} e.

Definition result_bind {A B : Type} (r : result A) (f : A -> result B) : result B :=
  match r with
  | Return a => f a
  | Raise e => Raise e
  end.

(** ** Characters and strings *)

Module PyStr.

Definition code (c : ascii) : N := N_of_ascii c.

Definition in_range (lo hi : ascii) (c : ascii) : bool :=
  ((code lo <=? code c) && (code c <=? code hi))%N.

Definition is_digit (c : ascii) : bool := in_range "0" "9" c.
Definition is_upper (c : ascii) : bool := in_range "A" "Z" c.
Definition is_lower (c : ascii) : bool := in_range "a" "z" c.
Definition is_alpha (c : ascii) : bool := is_upper c || is_lower c.

(** [\s] on ASCII text: tab, newline, vertical tab, form feed, carriage
    return, the four separators 28..31 and the space. *)
Definition is_space (c : ascii) : bool :=
  (((9 <=? code c) && (code c <=? 13)) || ((28 <=? code c) && (code c <=? 32)))%N.

Definition upper_char (c : ascii) : ascii :=
  if is_lower c then ascii_of_N (code c - 32) else c.

Definition lower_char (c : ascii) : ascii :=
  if is_upper c then ascii_of_N (code c + 32) else c.

Definition chars (s : string) : list ascii := list_ascii_of_string s.
Definition str (l : list ascii) : string := string_of_list_ascii l.

(** [s.upper()] and [s.lower()] *)
Definition upper (s : string) : string := str (map upper_char (chars s)).
Definition lower (s : string) : string := str (map lower_char (chars s)).

Fixpoint starts_with (p s : list ascii) : bool :=
  match p, s with
  | [], _ => true
  | a :: p', b :: s' => Ascii.eqb a b && starts_with p' s'
  | _ :: _, [] => false
  end.

Fixpoint contains_chars (p s : list ascii) : bool :=
  starts_with p s ||
  match s with
  | [] => false
  | _ :: s' => contains_chars p s'
  end.

(** [p in s] *)
Definition contains (p s : string) : bool := contains_chars (chars p) (chars s).

(** Truthiness of a [str]: only the empty string is false. *)
Definition truthy (s : string) : bool :=
  match s with
  | EmptyString => false
  | String _ _ => true
  end.

(** The double quote, which a literal cannot hold. *)
Definition dquote : ascii := ascii_of_N 34.
Definition dq : string := String dquote EmptyString.

End PyStr.

(** ** Python floats: IEEE-754 binary64 *)

Module PyFloat.

Definition float : Type := spec_float.

Definition prec : Z := 53.
Definition emax : Z := 1024.

Definition is_finite (x : float) : bool :=
  match x with
  | S754_zero _ | S754_finite _ _ _ => true
  | S754_infinity _ | S754_nan => false
  end.

(** [float(n)] for an [int]: correctly rounded; Python raises
    [OverflowError] when the integer is too large. *)
Definition of_int (n : Z) : result float :=
  let x := binary_normalize prec emax n 0 false in
  if is_finite x then Return x
  else Raise (OverflowError "int too large to convert to float").

(** Integers small enough to be exact. *)
Definition const (n : Z) : float := binary_normalize prec emax n 0 false.

Definition add : float -> float -> float := SFadd prec emax.
Definition sub : float -> float -> float := SFsub prec emax.
Definition mul : float -> float -> float := SFmul prec emax.

(** [x / y] on floats raises [ZeroDivisionError] on a zero divisor; the
    callers below only divide by non-zero constants and lengths. *)
Definition div (x y : float) : result float :=
  match y with
  | S754_zero _ => Raise (ZeroDivisionError "float division by zero")
  | _ => Return (SFdiv prec emax x y)
  end.

(** Division by a non-zero literal. *)
Definition div_nz : float -> float -> float := SFdiv prec emax.

Definition eqb : float -> float -> bool := SFeqb.
Definition ltb : float -> float -> bool := SFltb.

(** [int(x)]: truncation toward zero. *)
Definition to_int (x : float) : result Z :=
  match x with
  | S754_zero _ => Return 0
  | S754_finite s m e =>
      Return (cond_Zopp s (if 0 <=? e then Zpos m * 2 ^ e else Zpos m / 2 ^ (- e)))
  | S754_infinity _ => Raise (OverflowError "cannot convert float infinity to integer")
  | S754_nan => Raise (ValueError "cannot convert float NaN to integer")
  end.

(** The exact rational value of a finite float. *)
Definition to_Q (x : float) : option Q :=
  match x with
  | S754_zero _ => Some 0%Q
  | S754_finite s m e =>
      Some (if 0 <=? e then inject_Z (cond_Zopp s (Zpos m * 2 ^ e))
            else Qmake (cond_Zopp s (Zpos m)) (Z.to_pos (2 ^ (- e))))
  | S754_infinity _ | S754_nan => None
  end.

(** The correctly rounded quotient [n / d] of an integer by a positive
    integer ([int / int] true division, and the value of a decimal
    literal). *)
Definition of_ratio (n : Z) (d : positive) : float :=
  match n with
  | Z0 => S754_zero false
  | Zpos p => SFdiv prec emax (S754_finite false p 0) (S754_finite false d 0)
  | Zneg p => SFdiv prec emax (S754_finite true p 0) (S754_finite false d 0)
  end.

Fixpoint digits_value (acc : Z) (ds : list ascii) : Z :=
  match ds with
  | [] => acc
  | c :: ds' => digits_value (10 * acc + Z.of_N (PyStr.code c - 48)) ds'
  end.

(** [float(s)] for a literal [s] of the shape [\d+(\.\d+)?], the only
    shape the callers pass. *)
Definition of_decimal (int_part frac_part : list ascii) : float :=
  of_ratio (digits_value 0 (int_part ++ frac_part))
           (Z.to_pos (10 ^ Z.of_nat (List.length frac_part))).

Definition is_nan (x : float) : bool :=
  match x with
  | S754_nan => true
  | _ => false
  end.

(** Zero, a positive number or plus infinity. *)
Definition is_nonneg (x : float) : bool :=
  match x with
  | S754_zero _ | S754_finite false _ _ | S754_infinity false => true
  | _ => false
  end.

Definition zero : float := S754_zero false.
Definition one : float := const 1.
Definition hundred : float := const 100.
(** The literal [1.2] *)
Definition one_point_two : float := of_ratio 12 10.
(** The literal [0.5] *)
Definition half : float := of_ratio 1 2.

End PyFloat.


(** ** Regular expressions: a backtracking matcher

    The matcher lists every way a pattern can match a prefix of the
    input, in the order in which Python's backtracking engine tries them
    (greedy repetition first, alternatives left to right); the match that
    [re] reports is the first of the list. *)

Module Re.

Inductive regex : Type :=
| Eps
| Cls (p : ascii -> bool)              (* one character of a class *)
| Seq (r1 r2 : regex)
| Alt (r1 r2 : regex)
| Opt (r : regex)                      (* greedy [r?] *)
| Rep (p : ascii -> bool) (n : nat)    (* greedy [[p]{n,}] *)
| Group (i : nat) (r : regex).         (* capturing group number [i] *)

Definition captures : Type := list (nat * list ascii).

(** Remainders after [[p]*], longest repetition first. *)
Fixpoint star_runs (p : ascii -> bool) (s : list ascii) : list (list ascii) :=
  match s with
  | c :: s' => if p c then star_runs p s' ++ [s] else [s]
  | [] => [[]]
  end.

Fixpoint rep_runs (p : ascii -> bool) (n : nat) (s : list ascii) : list (list ascii) :=
  match n with
  | O => star_runs p s
  | S n' =>
      match s with
      | c :: s' => if p c then rep_runs p n' s' else []
      | [] => []
      end
  end.

Fixpoint matches (r : regex) (s : list ascii) (g : captures)
  : list (list ascii * captures) :=
  match r with
  | Eps => [(s, g)]
  | Cls p =>
      match s with
      | c :: s' => if p c then [(s', g)] else []
      | [] => []
      end
  | Seq r1 r2 => flat_map (fun x => matches r2 (fst x) (snd x)) (matches r1 s g)
  | Alt r1 r2 => matches r1 s g ++ matches r2 s g
  | Opt r1 => matches r1 s g ++ [(s, g)]
  | Rep p n => map (fun s' => (s', g)) (rep_runs p n s)
  | Group i r1 =>
      map (fun x => (fst x, (i, firstn (List.length s - List.length (fst x)) s) :: snd x))
          (matches r1 s g)
  end.

Record match_object : Type := {
  m_start : nat;               (* index of the first matched character *)
  m_text : list ascii;         (* [group(0)] *)
  m_rest : list ascii;         (* the input after the match *)
  m_groups : captures
}.

(** [re.search]: the first match at the leftmost position that has one. *)
Fixpoint search_from (r : regex) (pos : nat) (s : list ascii) : option match_object :=
  match matches r s [] with
  | (rest, g) :: _ =>
      Some {| m_start := pos;
              m_text := firstn (List.length s - List.length rest) s;
              m_rest := rest;
              m_groups := g |}
  | [] =>
      match s with
      | [] => None
      | _ :: s' => search_from r (S pos) s'
      end
  end.

Definition search (r : regex) (s : string) : option match_object :=
  search_from r 0 (PyStr.chars s).

Fixpoint lookup_group (i : nat) (g : captures) : option (list ascii) :=
  match g with
  | [] => None
  | (j, t) :: g' => if Nat.eqb i j then Some t else lookup_group i g'
  end.

(** [m.group(i)]: [None] when the group took no part in the match. *)
Definition group (m : match_object) (i : nat) : option string :=
  option_map PyStr.str (lookup_group i (m_groups m)).

(** [m.group(0)] *)
Definition group0 (m : match_object) : string := PyStr.str (m_text m).

(** [re.findall] for a pattern without groups that cannot match the empty
    string: the matches from left to right, each search resuming where
    the previous match ended ([skip] counts the characters still covered
    by it). *)
Fixpoint findall_from (r : regex) (skip : nat) (s : list ascii) : list (list ascii) :=
  match s with
  | [] => []
  | _ :: s' =>
      match skip with
      | S k => findall_from r k s'
      | O =>
          match matches r s [] with
          | (rest, _) :: _ =>
              let n := (List.length s - List.length rest)%nat in
              firstn n s :: findall_from r (n - 1) s'
          | [] => findall_from r 0 s'
          end
      end
  end.

Definition findall (r : regex) (s : string) : list string :=
  map PyStr.str (findall_from r 0 (PyStr.chars s)).

(** Building blocks *)
Definition chr (c : ascii) : regex := Cls (Ascii.eqb c).

(** A literal character under [re.IGNORECASE]. *)
Definition ichr (c : ascii) : regex :=
  Cls (fun x => Ascii.eqb (PyStr.lower_char x) (PyStr.lower_char c)).

Fixpoint iword (w : list ascii) : regex :=
  match w with
  | [] => Eps
  | c :: w' => Seq (ichr c) (iword w')
  end.

Definition istr (w : string) : regex := iword (PyStr.chars w).

Definition any_char : ascii -> bool := fun _ => true.

End Re.


(** ** json.loads

    The decoder of the Python standard library, as far as its result or
    failure on an ASCII text is concerned: objects, arrays, strings with
    their escapes, numbers and the constants, [JSONDecodeError] on any
    other text. *)

Module Json.

Import PyStr.

Inductive value : Type :=
| JNull
| JBool (b : bool)
| JInt (n : Z)
| JFloat (x : PyFloat.float)
| JStr (s : list N)                       (* code points *)
| JArr (items : list value)
| JObj (pairs : list (list N * value)).   (* the pairs [dict] is built from *)

(** [WHITESPACE = [ \t\n\r]*] *)
Definition is_ws (c : ascii) : bool :=
  Ascii.eqb c " " || (code c =? 9)%N || (code c =? 10)%N || (code c =? 13)%N.

Fixpoint skip_ws (s : list ascii) : list ascii :=
  match s with
  | c :: s' => if is_ws c then skip_ws s' else s
  | [] => []
  end.

Definition hex_value (c : ascii) : option N :=
  if is_digit c then Some (code c - 48)%N
  else if in_range "a" "f" c then Some (code c - 87)%N
  else if in_range "A" "F" c then Some (code c - 55)%N
  else None.

Definition decode_uXXXX (h1 h2 h3 h4 : ascii) : option N :=
  match hex_value h1, hex_value h2, hex_value h3, hex_value h4 with
  | Some a, Some b, Some c, Some d => Some (((a * 16 + b) * 16 + c) * 16 + d)%N
  | _, _, _, _ => None
  end.

(** [BACKSLASH] *)
Definition backslash (c : ascii) : option N :=
  if Ascii.eqb c dquote then Some 34%N
  else if Ascii.eqb c "\" then Some 92%N
  else if Ascii.eqb c "/" then Some 47%N
  else if Ascii.eqb c "b" then Some 8%N
  else if Ascii.eqb c "f" then Some 12%N
  else if Ascii.eqb c "n" then Some 10%N
  else if Ascii.eqb c "r" then Some 13%N
  else if Ascii.eqb c "t" then Some 9%N
  else None.

Definition is_high_surrogate (u : N) : bool := ((55296 <=? u) && (u <=? 56319))%N.
Definition is_low_surrogate (u : N) : bool := ((56320 <=? u) && (u <=? 57343))%N.

(** [scanstring], strict: the input starts just after the opening quote. *)
Fixpoint scanstring (s : list ascii) (acc : list N) : result (list N * list ascii) :=
  match s with
  | [] => Raise (JSONDecodeError "Unterminated string starting at")
  | c :: s1 =>
      if Ascii.eqb c dquote then Return (rev acc, s1)
      else if Ascii.eqb c "\" then
        match s1 with
        | [] => Raise (JSONDecodeError "Unterminated string starting at")
        | e :: s2 =>
            if Ascii.eqb e "u" then
              match s2 with
              | h1 :: h2 :: h3 :: h4 :: s3 =>
                  match decode_uXXXX h1 h2 h3 h4 with
                  | None => Raise (JSONDecodeError "Invalid \uXXXX escape")
                  | Some uni =>
                      match s3 with
                      | b :: u :: l1 :: l2 :: l3 :: l4 :: s4 =>
                          if is_high_surrogate uni && Ascii.eqb b "\" && Ascii.eqb u "u" then
                            match decode_uXXXX l1 l2 l3 l4 with
                            | None => Raise (JSONDecodeError "Invalid \uXXXX escape")
                            | Some uni2 =>
                                if is_low_surrogate uni2 then
                                  scanstring s4
                                    ((65536 + ((uni - 55296) * 1024 + (uni2 - 56320)))%N :: acc)
                                else scanstring s3 (uni :: acc)
                            end
                          else scanstring s3 (uni :: acc)
                      | _ => scanstring s3 (uni :: acc)
                      end
                  end
              | _ => Raise (JSONDecodeError "Invalid \uXXXX escape")
              end
            else
              match backslash e with
              | Some ch => scanstring s2 (ch :: acc)
              | None => Raise (JSONDecodeError "Invalid \escape")
              end
        end
      else if (code c <? 32)%N then Raise (JSONDecodeError "Invalid control character at")
      else scanstring s1 (code c :: acc)
  end.

(** [NUMBER_RE]: an optional minus sign, then [0] or a non-zero digit
    followed by digits (group 1); an optional fraction [\.[0-9]+]
    (group 2); an optional exponent [[eE][-+]?[0-9]+] (group 3). *)
Definition NUMBER_RE : Re.regex :=
  Re.Seq (Re.Group 1 (Re.Seq (Re.Opt (Re.chr "-"))
                             (Re.Alt (Re.chr "0")
                                     (Re.Seq (Re.Cls (in_range "1" "9")) (Re.Rep is_digit 0)))))
 (Re.Seq (Re.Opt (Re.Group 2 (Re.Seq (Re.chr ".") (Re.Rep is_digit 1))))
         (Re.Opt (Re.Group 3 (Re.Seq (Re.Cls (fun c => Ascii.eqb c "e" || Ascii.eqb c "E"))
                             (Re.Seq (Re.Opt (Re.Cls (fun c => Ascii.eqb c "-" || Ascii.eqb c "+")))
                                     (Re.Rep is_digit 1)))))).

(** [int(s)] for [-?[0-9]+] *)
Definition int_of_text (s : list ascii) : Z :=
  match s with
  | c :: s' => if Ascii.eqb c "-" then - PyFloat.digits_value 0 s'
               else PyFloat.digits_value 0 s
  | [] => 0
  end.

(** [int(s)] for [[-+]?[0-9]+] *)
Definition exp_of_text (s : list ascii) : Z :=
  match s with
  | c :: s' => if Ascii.eqb c "+" then PyFloat.digits_value 0 s' else int_of_text s
  | [] => 0
  end.

(** [float(integer + frac + exp)]: the correctly rounded value of
    [n * 10 ^ (e - length frac)]. *)
Definition float_of_parts (integer frac exp : list ascii) : PyFloat.float :=
  let neg := match integer with c :: _ => Ascii.eqb c "-" | [] => false end in
  let digits := match integer with
                | c :: t => if Ascii.eqb c "-" then t else integer
                | [] => []
                end in
  let n := PyFloat.digits_value 0 (digits ++ frac) in
  let e := exp_of_text exp - Z.of_nat (List.length frac) in
  let x := if n =? 0 then S754_zero false
           else if 0 <=? e then binary_normalize PyFloat.prec PyFloat.emax (n * 10 ^ e) 0 false
           else PyFloat.of_ratio n (Z.to_pos (10 ^ (- e))) in
  if neg then SFopp x else x.

Definition number_value (g : Re.captures) : value :=
  let integer := match Re.lookup_group 1 g with Some t => t | None => [] end in
  match Re.lookup_group 2 g, Re.lookup_group 3 g with
  | None, None => JInt (int_of_text integer)
  | frac, exp =>
      JFloat (float_of_parts integer
                (match frac with Some (_ :: t) => t | _ => [] end)
                (match exp with Some (_ :: t) => t | _ => [] end))
  end.

Definition expecting_value : exn := JSONDecodeError "Expecting value".

(** [scan_once] with [JSONObject] and [JSONArray]; [fuel] bounds the
    nesting, whose excess Python reports as [RecursionError]. *)
Fixpoint scan_once (fuel : nat) (s : list ascii) : result (value * list ascii) :=
  match fuel with
  | O => Raise RecursionError
  | S fuel' =>
      match s with
      | [] => Raise expecting_value
      | c :: s1 =>
          if Ascii.eqb c dquote then
            result_bind (scanstring s1 []) (fun r => Return (JStr (fst r), snd r))
          else if Ascii.eqb c "{" then
            let s2 := skip_ws s1 in
            match s2 with
            | c2 :: s3 =>
                if Ascii.eqb c2 "}" then Return (JObj [], s3)
                else if Ascii.eqb c2 dquote then
                  result_bind (object_members fuel' s3 [])
                              (fun r => Return (JObj (fst r), snd r))
                else Raise (JSONDecodeError
                              "Expecting property name enclosed in double quotes")
            | [] => Raise (JSONDecodeError
                             "Expecting property name enclosed in double quotes")
            end
          else if Ascii.eqb c "[" then
            let s2 := skip_ws s1 in
            match s2 with
            | c2 :: s3 =>
                if Ascii.eqb c2 "]" then Return (JArr [], s3)
                else result_bind (array_items fuel' s2 [])
                                 (fun r => Return (JArr (fst r), snd r))
            | [] => Raise expecting_value
            end
          else if starts_with (chars "null") s then Return (JNull, skipn 4 s)
          else if starts_with (chars "true") s then Return (JBool true, skipn 4 s)
          else if starts_with (chars "false") s then Return (JBool false, skipn 5 s)
          else
            match Re.matches NUMBER_RE s [] with
            | (rest, g) :: _ => Return (number_value g, rest)
            | [] =>
                if starts_with (chars "NaN") s then Return (JFloat S754_nan, skipn 3 s)
                else if starts_with (chars "Infinity") s
                then Return (JFloat (S754_infinity false), skipn 8 s)
                else if starts_with (chars "-Infinity") s
                then Return (JFloat (S754_infinity true), skipn 9 s)
                else Raise expecting_value
            end
      end
  end

(** The loop of [JSONObject]: the input starts just after the opening
    quote of a key. *)
with object_members (fuel : nat) (s : list ascii) (acc : list (list N * value))
  : result (list (list N * value) * list ascii) :=
  match fuel with
  | O => Raise RecursionError
  | S fuel' =>
      result_bind (scanstring s []) (fun ks =>
      match skip_ws (snd ks) with
      | colon :: s1 =>
          if Ascii.eqb colon ":" then
            result_bind (scan_once fuel' (skip_ws s1)) (fun vs =>
            let acc' := (fst ks, fst vs) :: acc in
            match skip_ws (snd vs) with
            | d :: s2 =>
                if Ascii.eqb d "}" then Return (rev acc', s2)
                else if Ascii.eqb d "," then
                  match skip_ws s2 with
                  | q :: s3 =>
                      if Ascii.eqb q dquote then object_members fuel' s3 acc'
                      else Raise (JSONDecodeError
                                    "Expecting property name enclosed in double quotes")
                  | [] => Raise (JSONDecodeError
                                   "Expecting property name enclosed in double quotes")
                  end
                else Raise (JSONDecodeError "Expecting ',' delimiter")
            | [] => Raise (JSONDecodeError "Expecting ',' delimiter")
            end)
          else Raise (JSONDecodeError "Expecting ':' delimiter")
      | [] => Raise (JSONDecodeError "Expecting ':' delimiter")
      end)
  end

(** The loop of [JSONArray]: the input starts at an item. *)
with array_items (fuel : nat) (s : list ascii) (acc : list value)
  : result (list value * list ascii) :=
  match fuel with
  | O => Raise RecursionError
  | S fuel' =>
      result_bind (scan_once fuel' s) (fun vs =>
      let acc' := fst vs :: acc in
      match skip_ws (snd vs) with
      | d :: s2 =>
          if Ascii.eqb d "]" then Return (rev acc', s2)
          else if Ascii.eqb d "," then array_items fuel' (skip_ws s2) acc'
          else Raise (JSONDecodeError "Expecting ',' delimiter")
      | [] => Raise (JSONDecodeError "Expecting ',' delimiter")
      end)
  end.

(** [json.loads(s)] *)
Definition loads (s : string) : result value :=
  let l := chars s in
  result_bind (scan_once (2 * List.length l + 2) (skip_ws l)) (fun vs =>
  match skip_ws (snd vs) with
  | [] => Return (fst vs)
  | _ :: _ => Raise (JSONDecodeError "Extra data")
  end).

End Json.

(** ** vector_store.py: the historical path ranker *)

Module VectorStore.

(** The entries of a [swap_info] dictionary that the ranker reads. *)
Record swap_info : Type := {
  txHash : string;
  dex : string;
  path : string;
  swapRate : PyFloat.float
}.

Record path_stat : Type := {
  ps_path : string;
  ps_dex : string;
  count : Z;
  rates : list PyFloat.float;
  txHashes : list string;
  bestRate : PyFloat.float;
  avgRate : PyFloat.float
}.

(** [path_stats]: a dictionary in insertion order. *)
Definition stats_dict : Type := list (string * path_stat).

Definition new_stat (p d : string) : path_stat :=
  {| ps_path := p; ps_dex := d; count := 0; rates := []; txHashes := [];
     bestRate := PyFloat.zero; avgRate := PyFloat.zero |}.

(** The updates of one loop iteration on [stats = path_stats[key]]. *)
Definition add_swap (swap : swap_info) (stats : path_stat) : path_stat :=
  let rate := swapRate swap in
  let positive := PyFloat.ltb PyFloat.zero rate in
  {| ps_path := ps_path stats;
     ps_dex := ps_dex stats;
     count := count stats + 1;
     rates := if positive then rates stats ++ [rate] else rates stats;
     txHashes := txHashes stats ++ [txHash swap];
     bestRate := if positive && PyFloat.ltb (bestRate stats) rate then rate
                 else bestRate stats;
     avgRate := avgRate stats |}.

(** [if key not in path_stats: path_stats[key] = init], then the update
    of [path_stats[key]]. *)
Fixpoint upsert (key : string) (init : path_stat) (f : path_stat -> path_stat)
  (d : stats_dict) : stats_dict :=
  match d with
  | [] => [(key, f init)]
  | (k, v) :: d' =>
      if String.eqb k key then (k, f v) :: d'
      else (k, v) :: upsert key init f d'
  end.

Definition record_swap (d : stats_dict) (swap : swap_info) : stats_dict :=
  let key := path swap ++ " on " ++ dex swap in
  upsert key (new_stat (path swap) (dex swap)) (add_swap swap) d.

(** [sum(rates)] *)
Definition sum (l : list PyFloat.float) : PyFloat.float :=
  fold_left PyFloat.add l PyFloat.zero.

(** [if stats["rates"]: stats["avgRate"] = sum(rates) / len(rates)] *)
Definition set_average (stats : path_stat) : result path_stat :=
  match rates stats with
  | [] => Return stats
  | _ :: _ =>
      result_bind (PyFloat.of_int (Z.of_nat (List.length (rates stats)))) (fun n =>
      result_bind (PyFloat.div (sum (rates stats)) n) (fun avg =>
      Return {| ps_path := ps_path stats; ps_dex := ps_dex stats;
                count := count stats; rates := rates stats;
                txHashes := txHashes stats; bestRate := bestRate stats;
                avgRate := avg |}))
  end.

Fixpoint set_averages (l : list path_stat) : result (list path_stat) :=
  match l with
  | [] => Return []
  | x :: l' =>
      result_bind (set_average x) (fun x' =>
      result_bind (set_averages l') (fun l'' => Return (x' :: l'')))
  end.

(** [(a["avgRate"], a["count"]) < (b["avgRate"], b["count"])], as Python
    compares tuples. *)
Definition key_lt (a b : path_stat) : bool :=
  if PyFloat.eqb (avgRate a) (avgRate b) then count a <? count b
  else PyFloat.ltb (avgRate a) (avgRate b).

(** [sorted(..., key=..., reverse=True)]: descending and stable. *)
Fixpoint insert_desc (x : path_stat) (l : list path_stat) : list path_stat :=
  match l with
  | [] => [x]
  | y :: l' => if key_lt x y then y :: insert_desc x l' else x :: l
  end.

Fixpoint sorted_desc (l : list path_stat) : list path_stat :=
  match l with
  | [] => []
  | x :: l' => insert_desc x (sorted_desc l')
  end.

(** The similarity search [retrieve_similar_swaps(query, token_filter=None,
    top_k=10)] is a collaborator. *)
Definition similarity_search : Type := string -> result (list swap_info).

Definition get_optimal_swap_paths (retrieve_similar_swaps : similarity_search)
  (from_token to_token : string) : result (list path_stat) :=
  let direct_query := "Swap " ++ from_token ++ " to " ++ to_token in
  result_bind (retrieve_similar_swaps direct_query) (fun direct_swaps =>
  let path_stats := fold_left record_swap direct_swaps [] in
  result_bind (set_averages (map snd path_stats)) (fun values =>
  Return (sorted_desc values))).

End VectorStore.

(** ** query_engine.py: the query parser *)

Module QueryEngine.

Import PyStr.

(** [\d+(?:\.\d+)?] *)
Definition number : Re.regex :=
  Re.Seq (Re.Rep is_digit 1) (Re.Opt (Re.Seq (Re.chr ".") (Re.Rep is_digit 1))).

(** [amount_pattern = r'(\d+(?:\.\d+)?)\s*([A-Za-z]+)'] *)
Definition amount_pattern : Re.regex :=
  Re.Seq (Re.Group 1 number)
         (Re.Seq (Re.Rep is_space 0) (Re.Group 2 (Re.Rep is_alpha 1))).

(** [(?:from|swap|convert|exchange)] *)
Definition verb_cue : Re.regex :=
  Re.Alt (Re.istr "from")
         (Re.Alt (Re.istr "swap") (Re.Alt (Re.istr "convert") (Re.istr "exchange"))).

(** [(?:to|for|into)] *)
Definition transition_cue : Re.regex :=
  Re.Alt (Re.istr "to") (Re.Alt (Re.istr "for") (Re.istr "into")).

(** [token_pattern =
      r'(?:from|swap|convert|exchange)\s+(\d+(?:\.\d+)?)?\s*([A-Za-z]+)\s+(?:to|for|into)\s+([A-Za-z]+)'],
    used with [re.IGNORECASE]. *)
Definition token_pattern : Re.regex :=
  Re.Seq verb_cue
 (Re.Seq (Re.Rep is_space 1)
 (Re.Seq (Re.Opt (Re.Group 1 number))
 (Re.Seq (Re.Rep is_space 0)
 (Re.Seq (Re.Group 2 (Re.Rep is_alpha 1))
 (Re.Seq (Re.Rep is_space 1)
 (Re.Seq transition_cue
 (Re.Seq (Re.Rep is_space 1)
         (Re.Group 3 (Re.Rep is_alpha 1))))))))).

(** [r'[A-Z]{2,}'] *)
Definition ticker_pattern : Re.regex := Re.Rep is_upper 2.

(** [float(s)] for a text matched by [number]. *)
Fixpoint split_at_dot (s : list ascii) : list ascii * list ascii :=
  match s with
  | [] => ([], [])
  | c :: s' =>
      if Ascii.eqb c "." then ([], s')
      else let (a, b) := split_at_dot s' in (c :: a, b)
  end.

Definition float_of_number (s : string) : PyFloat.float :=
  let (a, b) := split_at_dot (chars s) in PyFloat.of_decimal a b.

(** The text of a group that takes part in every match of its pattern. *)
Definition group_text (m : Re.match_object) (i : nat) : string :=
  match Re.group m i with
  | Some t => t
  | None => ""
  end.

Definition intent : Type := (option string * option string * option PyFloat.float)%type.

Definition parse_swap_query (query : string) : intent :=
  match Re.search token_pattern query with
  | Some token_match =>
      let amount := Re.group token_match 1 in
      let from_token := upper (group_text token_match 2) in
      let to_token := upper (group_text token_match 3) in
      (Some from_token, Some to_token, option_map float_of_number amount)
  | None =>
      let tokens := Re.findall ticker_pattern (upper query) in
      let amount_match := Re.search amount_pattern query in
      match tokens, amount_match with
      | t0 :: t1 :: _, Some am =>
          let amount := float_of_number (group_text am 1) in
          let token := upper (group_text am 2) in
          if String.eqb token t0 then (Some t0, Some t1, Some amount)
          else (Some t0, Some t1, None)
      | t0 :: t1 :: _, None => (Some t0, Some t1, None)
      | _, _ => (None, None, None)
      end
  end.

(** *** The advice synthesizer *)

(** What the prompt sent to the language model is built from. *)
Inductive prompt : Type :=
| FallbackPrompt (query : string)
| EnrichedPrompt (from_token to_token : string) (amount : option PyFloat.float)
    (best_historical_path : option VectorStore.path_stat)
    (one_inch : option (PyFloat.float * Z)).

(** A quote of the 1inch API: [toTokenAmount] and [estimatedGas]. *)
Record one_inch_quote : Type := {
  toTokenAmount : Z;
  estimatedGas : Z
}.

Record collaborators : Type := {
  (** [llm_model.generate_swap_advice]: it catches every exception of
      the completion service and returns a text in all cases. *)
  generate_swap_advice : prompt -> string;
  retrieve_similar_swaps : VectorStore.similarity_search;
  (** [get_1inch_swap_data]: [None] when the request fails. *)
  get_1inch_swap_data : string -> string -> PyFloat.float -> option one_inch_quote
}.

(** [re.search(r'\{.*\}', llm_advice, re.DOTALL)] *)
Definition json_block : Re.regex :=
  Re.Seq (Re.chr "{") (Re.Seq (Re.Rep Re.any_char 0) (Re.chr "}")).

(** Lines 206-210: the structured block of the advice. *)
Definition swap_details_of (llm_advice : string) : result (option Json.value) :=
  match Re.search json_block llm_advice with
  | Some json_match =>
      result_bind (Json.loads (Re.group0 json_match)) (fun v => Return (Some v))
  | None => Return None
  end.

Definition get_best_swap_path (c : collaborators) (query : string)
  : result (string * option Json.value) :=
  match parse_swap_query query with
  | (Some from_token, Some to_token, amount) =>
      if negb (truthy from_token) || negb (truthy to_token) then
        Return (generate_swap_advice c (FallbackPrompt query), None)
      else
        result_bind (VectorStore.get_optimal_swap_paths (retrieve_similar_swaps c)
                       from_token to_token) (fun historical_paths =>
        let one_inch_data :=
          match amount with
          | Some a => get_1inch_swap_data c from_token to_token a
          | None => None
          end in
        result_bind
          (match one_inch_data with
           | Some q =>
               result_bind (PyFloat.of_int (toTokenAmount q)) (fun out =>
               result_bind (PyFloat.div out (PyFloat.const 1000000)) (fun est =>
               Return (Some (est, estimatedGas q))))
           | None => Return None
           end) (fun one_inch_context =>
        let llm_advice :=
          generate_swap_advice c
            (EnrichedPrompt from_token to_token amount
               (hd_error historical_paths) one_inch_context) in
        result_bind (swap_details_of llm_advice) (fun swap_details =>
        Return (llm_advice, swap_details))))
  | _ => Return (generate_swap_advice c (FallbackPrompt query), None)
  end.

End QueryEngine.



(** ** Integers as text *)

Module PyInt.

Import PyStr.

(** The value of a character as a digit: [0-9], then the letters of
    either case from 10 on. *)
Definition digit_value (c : ascii) : option Z :=
  if is_digit c then Some (Z.of_N (code c) - 48)
  else if is_lower c then Some (Z.of_N (code c) - 87)
  else if is_upper c then Some (Z.of_N (code c) - 55)
  else None.

(** The whitespace that [int] skips in ASCII text: tab, newline, vertical
    tab, form feed, carriage return and the space (the separators 28..31
    are not skipped). *)
Definition is_blank (c : ascii) : bool :=
  (((9 <=? code c) && (code c <=? 13)) || (code c =? 32))%N.

Fixpoint skip_space (s : list ascii) : list ascii :=
  match s with
  | c :: s' => if is_blank c then skip_space s' else s
  | [] => []
  end.

(** The digits of a literal in base 16, single underscores allowed
    between them: the value, the number of digits and the text left, or
    [None] for a doubled or trailing underscore. *)
Fixpoint scan_digits (s : list ascii) (after_underscore : bool) (acc : Z) (digits : nat)
  : option (Z * nat * list ascii) :=
  let stop := if after_underscore then None else Some (acc, digits, s) in
  match s with
  | c :: s' =>
      if Ascii.eqb c "_" then
        if after_underscore then None else scan_digits s' true acc digits
      else
        match digit_value c with
        | Some d => if d <? 16 then scan_digits s' false (16 * acc + d) (S digits) else stop
        | None => stop
        end
  | [] => stop
  end.

Definition invalid_literal {A : Type} : result A :=
  Raise (ValueError "invalid literal for int() with base 16").

(** [int(s, 16)] on ASCII text: surrounding whitespace, a sign, the prefix
    [0x] or [0X] with one underscore after it, then the digits. *)
Definition int16 (s : string) : result Z :=
  let s1 := skip_space (chars s) in
  let (sign, s2) :=
    match s1 with
    | c :: s' =>
        if Ascii.eqb c "+" then (1, s')
        else if Ascii.eqb c "-" then (-1, s')
        else (1, s1)
    | [] => (1, s1)
    end in
  let s3 :=
    match s2 with
    | z :: x :: s' =>
        if Ascii.eqb z "0" && (Ascii.eqb x "x" || Ascii.eqb x "X") then
          match s' with
          | u :: s'' => if Ascii.eqb u "_" then s'' else s'
          | [] => s'
          end
        else s2
    | _ => s2
    end in
  match s3 with
  | u :: _ => if Ascii.eqb u "_" then invalid_literal else
      match scan_digits s3 false 0 0 with
      | Some (v, S _, rest) =>
          match skip_space rest with
          | [] => Return (sign * v)
          | _ :: _ => invalid_literal
          end
      | _ => invalid_literal
      end
  | [] => invalid_literal
  end.

Definition hex_digit (d : Z) : ascii :=
  if d <? 10 then ascii_of_N (Z.to_N (48 + d)) else ascii_of_N (Z.to_N (87 + d)).

Fixpoint hex_digits (fuel : nat) (n : Z) (acc : list ascii) : list ascii :=
  let acc' := hex_digit (n mod 16) :: acc in
  match fuel with
  | O => acc'
  | S fuel' => if n <? 16 then acc' else hex_digits fuel' (n / 16) acc'
  end.

(** [format(n, "x")]: lower-case digits in base 16, with a minus sign
    for a negative number. *)
Definition format_x (n : Z) : string :=
  let digits := str (hex_digits (Z.to_nat (Z.log2 (Z.abs n))) (Z.abs n) []) in
  if n <? 0 then "-" ++ digits else digits.

End PyInt.

(** ** data_fetcher.py: the chain-data request with retries *)

Module DataFetcher.

(** What one [requests.post] attempt leads to. *)
Inductive outcome : Type :=
| RequestException (e : string)   (* raised by the request or by [raise_for_status] *)
| ErrorResponse (error : string)  (* a reply with an ["error"] entry; its [str()] *)
| Response (response_json : Json.value).

Inductive event : Type :=
| Post (attempt : Z)
| Sleep (seconds : Z).

Definition max_retries : Z := 3.

(** The body of [for attempt in range(max_retries)], with [remaining]
    iterations left. *)
Fixpoint attempts (post : Z -> outcome) (remaining : nat) (attempt : Z)
  : option Json.value * list event :=
  match remaining with
  | O => (None, [])
  | S remaining' =>
      match post attempt with
      | Response response_json => (Some response_json, [Post attempt])
      | ErrorResponse error =>
          if PyStr.contains "rate limit" (PyStr.lower error) then
            let wait_time := 2 ^ attempt * 2 in
            let (r, t) := attempts post remaining' (attempt + 1) in
            (r, Post attempt :: Sleep wait_time :: t)
          else (None, [Post attempt])
      | RequestException _ =>
          if attempt <? max_retries - 1 then
            let (r, t) := attempts post remaining' (attempt + 1) in
            (r, Post attempt :: Sleep 2 :: t)
          else (None, [Post attempt])
      end
  end.

Definition make_alchemy_request (post : Z -> outcome) : option Json.value * list event :=
  attempts post (Z.to_nat max_retries) 0.

(** [format_max_count]: lines 570-580. *)
Definition format_max_count (max_results : Z) : string :=
  let max_results :=
    if max_results >? 1000 then 1000
    else if max_results <=? 0 then 1
    else max_results in
  "0x" ++ PyInt.format_x max_results.

End DataFetcher.


(** ** swap_executor.py: building and executing a swap *)

Module SwapExecutor.

Import PyStr.

Definition TOKEN_ADDRESSES : list (string * string) :=
  [ ("ETH", "0xEeeeeEeeeEeEeeEeEeEeeEEEeeeeEeeeeeeeEEeE");
    ("WETH", "0xC02aaA39b223FE8D0A0e5C4F27eAD9083C756Cc2");
    ("USDC", "0xA0b86991c6218b36c1d19D4a2e9Eb0cE3606eB48");
    ("USDT", "0xdAC17F958D2ee523a2206206994597C13D831ec7");
    ("DAI", "0x6B175474E89094C44Da98b954EedeAC495271d0F");
    ("WBTC", "0x2260FAC5E5542a773Aa44fBCfeDf7C193bc2C599") ].

Definition DEX_ROUTER_ADDRESSES : list (string * string) :=
  [ ("Uniswap V2", "0x7a250d5630B4cF539739dF2C5dAcb4c659F2488D");
    ("Uniswap V3", "0xE592427A0AEce92De3Edee1F18E0157C05861564");
    ("SushiSwap", "0xd9e1cE17f2641f24aE83637ab66a2cca9C378B9F");
    ("1inch", "0x1111111254fb6c44bAC0beD2854e76F90643097d") ].

(** [d.get(key)] *)
Fixpoint dict_get (key : string) (d : list (string * string)) : option string :=
  match d with
  | [] => None
  | (k, v) :: d' => if String.eqb key k then Some v else dict_get key d'
  end.

(** [key in d] *)
Definition dict_mem (key : string) (d : list (string * string)) : bool :=
  match dict_get key d with
  | Some _ => true
  | None => false
  end.

(** [d[key]] for a key that the caller has checked or that is a literal
    of the table. *)
Definition dict_item (key : string) (d : list (string * string)) : string :=
  match dict_get key d with
  | Some v => v
  | None => ""
  end.

(** *** Contract calls and transactions *)

Inductive contract_call : Type :=
| approve (token spender : string) (value : Z)
| swapExactETHForTokens (router : string) (amountOutMin : Z)
    (path : list string) (to : string) (deadline : Z)
| swapExactTokensForETH (router : string) (amountIn amountOutMin : Z)
    (path : list string) (to : string) (deadline : Z)
| swapExactTokensForTokens (router : string) (amountIn amountOutMin : Z)
    (path : list string) (to : string) (deadline : Z).

(** The dictionary given to [estimate_gas] and [build_transaction]. *)
Record tx_params : Type := {
  tx_from : string;
  tx_value : option Z;
  tx_gas : option Z;
  tx_gasPrice : option Z;
  tx_nonce : option Z;
  tx_chainId : option Z
}.

Record transaction : Type := {
  tx_call : contract_call;
  tx_fields : tx_params
}.

(** The chain and the [web3] library, as the executor uses them.  Every
    call may raise. *)
Record Web3 : Type := {
  to_checksum_address : string -> option string;   (* [None]: [ValueError] *)
  to_wei_ether : PyFloat.float -> result Z;
  time : PyFloat.float;
  get_balance : string -> result Z;
  gas_price : result Z;
  get_transaction_count : string -> result Z;
  balanceOf : string -> string -> result Z;        (* token, owner *)
  decimals : string -> result N;                   (* token; a [uint8] *)
  estimate_gas : contract_call -> tx_params -> result Z;
  build_transaction : contract_call -> tx_params -> result transaction;
  sign_transaction : transaction -> string -> result string;
  send_raw_transaction : string -> result string;
  wait_for_transaction_receipt : string -> Z -> result Z   (* the receipt's status *)
}.

(** The calls to the chain, in the order in which they are made. *)
Inductive event : Type :=
| GetBalance (address : string)
| GasPrice
| GetTransactionCount (address : string)
| BalanceOf (token owner : string)
| Decimals (token : string)
| EstimateGas (call : contract_call) (params : tx_params)
| BuildTransaction (call : contract_call) (params : tx_params)
| SignTransaction (tx : transaction)
| SendRawTransaction (raw : string)
| WaitForTransactionReceipt (tx_hash : string) (timeout : Z).

(** A computation: its result or exception, and the calls it made. *)
Definition M (A : Type) : Type := (result A * list event)%type.

Definition ret {A : Type} (a : A) : M A := (Return a, []).
Definition raise {A : Type} (e : exn) : M A := (Raise e, []).

Definition bind {A B : Type} (m : M A) (f : A -> M B) : M B :=
  match m with
  | (Return a, t) => let (r, t') := f a in (r, (t ++ t')%list)
  | (Raise e, t) => (Raise e, t)
  end.

(** A call to the chain: logged, then answered. *)
Definition call {A : Type} (ev : event) (answer : result A) : M A := (answer, [ev]).

(** A computation without chain calls. *)
Definition pure {A : Type} (r : result A) : M A := (r, []).

(** [try: m except Exception: handler] *)
Definition try_except {A : Type} (m : M A) (handler : M A) : M A :=
  match m with
  | (Return a, t) => m
  | (Raise _, t) => let (r, t') := handler in (r, (t ++ t')%list)
  end.

Notation "x <- m ;; k" := (bind m (fun x => k))
  (at level 61, m at next level, right associativity).

(** *** The executor *)

Record wallet : Type := {
  w_address : string;
  w_key : string
}.

Record SwapExecutor : Type := {
  test_mode : bool;
  chain_id : Z;
  account : option wallet          (* [self.account], with [self.address] *)
}.

Definition no_wallet : exn := ValueError "No wallet connected. Use load_wallet() first.".

(** [self.web3.to_checksum_address(a)] *)
Definition checksum (w3 : Web3) (a : string) : M string :=
  match to_checksum_address w3 a with
  | Some c => ret c
  | None => raise (ValueError "invalid address")
  end.

(** What [get_token_balance] returns: a [Decimal] number of ether, or a
    [float] number of token units. *)
Inductive balance : Type :=
| DecimalEther (wei : Z)
| FloatUnits (x : PyFloat.float).

Definition get_token_balance (self : SwapExecutor) (w3 : Web3) (token_symbol : string)
  : M balance :=
  match account self with
  | None => raise no_wallet
  | Some acct =>
      if negb (truthy (w_address acct)) then raise no_wallet
      else if String.eqb token_symbol "ETH" then
        balance_wei <- call (GetBalance (w_address acct)) (get_balance w3 (w_address acct)) ;;
        ret (DecimalEther balance_wei)
      else if negb (dict_mem token_symbol TOKEN_ADDRESSES) then
        raise (ValueError ("Unknown token: " ++ token_symbol))
      else
        token_address <- checksum w3 (dict_item token_symbol TOKEN_ADDRESSES) ;;
        token_contract <- checksum w3 token_address ;;
        bal <- call (BalanceOf token_contract (w_address acct))
                    (balanceOf w3 token_contract (w_address acct)) ;;
        dec <- call (Decimals token_contract) (decimals w3 token_contract) ;;
        ret (FloatUnits (PyFloat.of_ratio bal (Z.to_pos (10 ^ Z.of_N dec))))
  end.

(** [balance < amount] *)
Definition balance_lt (b : balance) (amount : PyFloat.float) : result bool :=
  match b with
  | FloatUnits x => Return (PyFloat.ltb x amount)
  | DecimalEther wei =>
      match amount with
      | S754_nan => if wei =? 0 then Return false else Raise InvalidOperation
      | S754_infinity s => Return (negb s)
      | _ =>
          match PyFloat.to_Q amount with
          | Some q => Return (negb (Qle_bool q (Qmake wei (10 ^ 18))))
          | None => Return false
          end
      end
  end.

(** [2**256 - 1] *)
Definition unlimited : Z := 2 ^ 256 - 1.

(** [int(gas_estimate * 1.2)] *)
Definition with_margin (gas_estimate : Z) : result Z :=
  result_bind (PyFloat.of_int gas_estimate) (fun g =>
  PyFloat.to_int (PyFloat.mul g PyFloat.one_point_two)).

Definition approve_token (self : SwapExecutor) (w3 : Web3)
  (token_symbol dex_name : string) (amount : option Z) : M bool :=
  match account self with
  | None => raise no_wallet
  | Some acct =>
      if String.eqb token_symbol "ETH" then ret true
      else if negb (dict_mem token_symbol TOKEN_ADDRESSES) then
        raise (ValueError ("Unknown token: " ++ token_symbol))
      else if negb (dict_mem dex_name DEX_ROUTER_ADDRESSES) then
        raise (ValueError ("Unknown DEX: " ++ dex_name))
      else
        token_address <- checksum w3 (dict_item token_symbol TOKEN_ADDRESSES) ;;
        router_address <- checksum w3 (dict_item dex_name DEX_ROUTER_ADDRESSES) ;;
        token_contract <- checksum w3 token_address ;;
        let approval_amount :=
          match amount with
          | Some a => a
          | None => unlimited
          end in
        let approval := approve token_contract router_address approval_amount in
        let from_only :=
          {| tx_from := w_address acct; tx_value := None; tx_gas := None;
             tx_gasPrice := None; tx_nonce := None; tx_chainId := None |} in
        gas_estimate <- call (EstimateGas approval from_only)
                             (estimate_gas w3 approval from_only) ;;
        price <- call GasPrice (gas_price w3) ;;
        gas <- pure (with_margin gas_estimate) ;;
        nonce <- call (GetTransactionCount (w_address acct))
                      (get_transaction_count w3 (w_address acct)) ;;
        let params :=
          {| tx_from := w_address acct; tx_value := None; tx_gas := Some gas;
             tx_gasPrice := Some price; tx_nonce := Some nonce;
             tx_chainId := Some (chain_id self) |} in
        tx <- call (BuildTransaction approval params) (build_transaction w3 approval params) ;;
        if test_mode self then ret true
        else
          signed_tx <- call (SignTransaction tx) (sign_transaction w3 tx (w_key acct)) ;;
          tx_hash <- call (SendRawTransaction signed_tx) (send_raw_transaction w3 signed_tx) ;;
          status <- call (WaitForTransactionReceipt tx_hash 120)
                         (wait_for_transaction_receipt w3 tx_hash 120) ;;
          ret (status =? 1)
  end.

(** Line 417: [int(amount_in_wei * (1 - slippage / 100))] *)
Definition amount_out_min_of (amount_in_wei : Z) (slippage : PyFloat.float) : result Z :=
  result_bind (PyFloat.of_int amount_in_wei) (fun a =>
  PyFloat.to_int
    (PyFloat.mul a (PyFloat.sub PyFloat.one (PyFloat.div_nz slippage PyFloat.hundred)))).

Record swap_details : Type := {
  d_from_token : string;
  d_to_token : string;
  d_amount : PyFloat.float;
  d_dex : string;
  d_slippage : PyFloat.float;
  d_destination : string;
  d_path : list string;
  d_min_amount_out : Z
}.

Record swap_data : Type := {
  sd_test_mode : bool;        (* whether the ["test_mode"] entry is present *)
  tx_data : transaction;
  details : swap_details
}.

(** The gas limit: the estimate with its margin, or 300000 when the
    estimation raises. *)
Definition gas_limit (w3 : Web3) (c : contract_call) (params : tx_params) : M Z :=
  try_except
    (gas_estimate <- call (EstimateGas c params) (estimate_gas w3 c params) ;;
     pure (with_margin gas_estimate))
    (ret 300000).

Definition with_gas (params : tx_params) (gas : Z) : tx_params :=
  {| tx_from := tx_from params; tx_value := tx_value params; tx_gas := Some gas;
     tx_gasPrice := tx_gasPrice params; tx_nonce := tx_nonce params;
     tx_chainId := tx_chainId params |}.

(** [destination_address if destination_address else self.address] *)
Definition default_destination (acct : wallet) (destination_address : option string)
  : string :=
  match destination_address with
  | Some d => if truthy d then d else w_address acct
  | None => w_address acct
  end.

Definition generate_swap_transaction (self : SwapExecutor) (w3 : Web3)
  (from_token to_token : string) (amount : PyFloat.float) (dex_name : string)
  (slippage : PyFloat.float) (destination_address : option string) : M swap_data :=
  match account self with
  | None => raise no_wallet
  | Some acct =>
      let destination := default_destination acct destination_address in
      destination <-
        (if truthy destination then
           match to_checksum_address w3 destination with
           | Some c => ret c
           | None => raise (ValueError ("Invalid destination address format: " ++ destination))
           end
         else ret destination) ;;
      if negb (dict_mem from_token TOKEN_ADDRESSES) && negb (String.eqb from_token "ETH")
      then raise (ValueError ("Unknown source token: " ++ from_token))
      else if negb (dict_mem to_token TOKEN_ADDRESSES) && negb (String.eqb to_token "ETH")
      then raise (ValueError ("Unknown destination token: " ++ to_token))
      else
        bal <- get_token_balance self w3 (if String.eqb from_token "ETH" then "ETH" else from_token) ;;
        short <- pure (balance_lt bal amount) ;;
        if (short : bool) then
          raise (ValueError ("Insufficient " ++
                             (if String.eqb from_token "ETH" then "ETH" else from_token) ++
                             " balance"))
        else if negb (dict_mem dex_name DEX_ROUTER_ADDRESSES) then
          raise (ValueError ("Unsupported DEX: " ++ dex_name))
        else
          router <- checksum w3 (dict_item dex_name DEX_ROUTER_ADDRESSES) ;;
          router_address <- checksum w3 (dict_item dex_name DEX_ROUTER_ADDRESSES) ;;
          p0 <- checksum w3 (dict_item (if String.eqb from_token "ETH" then "WETH" else from_token)
                                       TOKEN_ADDRESSES) ;;
          p1 <- checksum w3 (dict_item (if String.eqb to_token "ETH" then "WETH" else to_token)
                                       TOKEN_ADDRESSES) ;;
          let path := [p0; p1] in
          deadline <- pure (PyFloat.to_int (PyFloat.add (time w3) (PyFloat.const (30 * 60)))) ;;
          amount_in_wei <-
            (if String.eqb from_token "ETH" then pure (to_wei_ether w3 amount)
             else
               token_contract <- checksum w3 (dict_item from_token TOKEN_ADDRESSES) ;;
               dec <- call (Decimals token_contract) (decimals w3 token_contract) ;;
               pure (result_bind (PyFloat.of_int (10 ^ Z.of_N dec)) (fun scale =>
                     PyFloat.to_int (PyFloat.mul amount scale)))) ;;
          amount_out_min <- pure (amount_out_min_of amount_in_wei slippage) ;;
          nonce <- call (GetTransactionCount (w_address acct))
                        (get_transaction_count w3 (w_address acct)) ;;
          let is_eth_in := String.eqb from_token "ETH" && negb (String.eqb to_token "ETH") in
          let is_eth_out := negb (String.eqb from_token "ETH") && String.eqb to_token "ETH" in
          let params :=
            {| tx_from := w_address acct;
               tx_value := if is_eth_in then Some amount_in_wei else None;
               tx_gas := None; tx_gasPrice := None; tx_nonce := Some nonce;
               tx_chainId := Some (chain_id self) |} in
          let swap :=
            if is_eth_in then
              swapExactETHForTokens router amount_out_min path destination deadline
            else if is_eth_out then
              swapExactTokensForETH router amount_in_wei amount_out_min path destination deadline
            else
              swapExactTokensForTokens router amount_in_wei amount_out_min path destination
                deadline in
          gas <- gas_limit w3 swap params ;;
          tx <- call (BuildTransaction swap (with_gas params gas))
                     (build_transaction w3 swap (with_gas params gas)) ;;
          ret {| sd_test_mode := test_mode self;
                 tx_data := tx;
                 details := {| d_from_token := from_token; d_to_token := to_token;
                               d_amount := amount; d_dex := dex_name;
                               d_slippage := slippage; d_destination := destination;
                               d_path := path; d_min_amount_out := amount_out_min |} |}
  end.

Definition execute_swap (self : SwapExecutor) (w3 : Web3)
  (from_token to_token : string) (amount : PyFloat.float) (dex_name : string)
  (slippage : PyFloat.float) (destination_address : option string)
  (test_mode_arg : option bool) : M (option string) :=
  let test_mode :=
    match test_mode_arg with
    | Some b => b
    | None => test_mode self
    end in
  match account self with
  | None => raise no_wallet
  | Some acct =>
      swap_data <- generate_swap_transaction self w3 from_token to_token amount dex_name
                     slippage destination_address ;;
      if test_mode then ret (Some "test_tx_hash")
      else
        signed_tx <- call (SignTransaction (tx_data swap_data))
                          (sign_transaction w3 (tx_data swap_data) (w_key acct)) ;;
        tx_hash <- call (SendRawTransaction signed_tx) (send_raw_transaction w3 signed_tx) ;;
        status <- call (WaitForTransactionReceipt tx_hash 300)
                       (wait_for_transaction_receipt w3 tx_hash 300) ;;
        if status =? 1 then ret (Some tx_hash) else ret None
  end.

(** *** Loading a wallet *)

(** What the user types at the two prompts of [prompt_for_private_key]. *)
Record terminal : Type := {
  typed_key : string;             (* [getpass.getpass(...)] *)
  typed_confirmation : string     (* [input(...)], when it is asked *)
}.

Inductive question : Type :=
| AskKey
| AskConfirmation.

(** [prompt_for_private_key]: the key, and the questions asked. *)
Definition prompt_for_private_key (t : terminal) : option string * list question :=
  let private_key := typed_key t in
  let private_key :=
    if negb (starts_with (chars "0x") (chars private_key)) then "0x" ++ private_key
    else private_key in
  if negb (Nat.eqb (String.length private_key) 66) then
    if negb (String.eqb (lower (typed_confirmation t)) "y") then
      (None, [AskKey; AskConfirmation])
    else (Some private_key, [AskKey; AskConfirmation])
  else (Some private_key, [AskKey]).

Definition with_account (self : SwapExecutor) (acct : wallet) : SwapExecutor :=
  {| test_mode := test_mode self; chain_id := chain_id self; account := Some acct |}.

(** [load_wallet]: what it returns or raises with the calls it makes, and
    the executor afterwards.  [from_key] is [Account.from_key]; the
    balance is only read to be printed, and [from_wei] accepts it up to
    [2**256 - 1]. *)
Definition load_wallet (self : SwapExecutor) (w3 : Web3)
  (from_key : string -> result wallet) (t : terminal) (private_key : option string)
  : M (option string) * SwapExecutor :=
  let private_key :=
    match private_key with
    | Some k => if truthy k then Some k else fst (prompt_for_private_key t)
    | None => fst (prompt_for_private_key t)
    end in
  match private_key with
  | None => (raise (ValueError "No private key provided"), self)
  | Some k =>
      if negb (truthy k) then (raise (ValueError "No private key provided"), self)
      else
        match from_key k with
        | Raise _ => (ret None, self)
        | Return acct =>
            (try_except
               (eth_balance <- call (GetBalance (w_address acct))
                                    (get_balance w3 (w_address acct)) ;;
                if (eth_balance <? 0) || (unlimited <? eth_balance) then
                  raise (ValueError "Value must be between 1 and 2**256 - 1")
                else ret (Some (w_address acct)))
               (ret None),
             with_account self acct)
        end
  end.

End SwapExecutor.

(** ** api/main.py: the endpoints of the executor *)

Module Api.

Import PyStr.

(** What an [except Exception as e] clause has caught: an exception of
    the executor, or an [HTTPException] raised inside the [try] itself. *)
Inductive caught : Type :=
| Exn (e : exn)
| Http (status_code : Z) (detail : string).

(** [HTTPException(status_code=500, detail=f"<prefix>{str(e)}")] *)
Record HTTPException : Type := {
  status_code : Z;
  prefix : string;
  cause : caught
}.

Inductive response (A : Type) : Type :=
| Answer (a : A)
| Fail (e : HTTPException).

Arguments Answer {A} a.
Arguments Fail {A} e.

Record SwapDetails : Type := {
  from_token : string;
  to_token : string;
  amount : PyFloat.float;
  dex : string;
  slippage : PyFloat.float
}.

Record SwapExecutionResponse : Type := {
  success : bool;
  tx_hash : option string;
  message : string
}.

(** [POST /execute-swap].  The request body is a validated model, which
    is never falsy, so the check of line 103 does not fire. *)
Definition execute_swap (swap_executor : SwapExecutor.SwapExecutor)
  (w3 : SwapExecutor.Web3) (swap_details : SwapDetails) (test_mode : bool)
  : response SwapExecutionResponse * list SwapExecutor.event :=
  match SwapExecutor.execute_swap swap_executor w3
          (from_token swap_details) (to_token swap_details) (amount swap_details)
          (dex swap_details) (slippage swap_details) None (Some test_mode) with
  | (Return (Some h), t) =>
      if truthy h then
        (Answer {| success := true; tx_hash := Some h;
                   message := "Swap executed successfully!" |}, t)
      else
        (Answer {| success := false; tx_hash := None;
                   message := "Swap failed or was cancelled." |}, t)
  | (Return None, t) =>
      (Answer {| success := false; tx_hash := None;
                 message := "Swap failed or was cancelled." |}, t)
  | (Raise e, t) =>
      (Fail {| status_code := 500; prefix := "Error executing swap: "; cause := Exn e |}, t)
  end.

(** [POST /connect-wallet]: the answer, the global [swap_executor]
    afterwards, and the calls to the chain.  [new_executor] is
    [SwapExecutor(network="mainnet", test_mode=test_mode)]. *)
Definition connect_wallet (new_executor : bool -> result SwapExecutor.SwapExecutor)
  (w3 : SwapExecutor.Web3) (from_key : string -> result SwapExecutor.wallet)
  (t : SwapExecutor.terminal) (swap_executor : SwapExecutor.SwapExecutor)
  (private_key : string) (test_mode : bool)
  : response string * SwapExecutor.SwapExecutor * list SwapExecutor.event :=
  let failed (c : caught) :=
    Fail {| status_code := 500; prefix := "Error connecting wallet: "; cause := c |} in
  match new_executor test_mode with
  | Raise e => (failed (Exn e), swap_executor, [])
  | Return fresh =>
      let (run, loaded) := SwapExecutor.load_wallet fresh w3 from_key t (Some private_key) in
      match run with
      | (Return (Some address), calls) =>
          if truthy address then (Answer "Wallet connected successfully!", loaded, calls)
          else
            (failed (Http 400 "Failed to load wallet. Please check the private key."),
             loaded, calls)
      | (Return None, calls) =>
          (failed (Http 400 "Failed to load wallet. Please check the private key."),
           loaded, calls)
      | (Raise e, calls) => (failed (Exn e), loaded, calls)
      end
  end.

End Api.


(** ** Observations on the calls of a run *)

Module Calls.

Import SwapExecutor.

(** Every call made by [m] satisfies [P]. *)
Definition calls_all {A : Type} (P : event -> Prop) (m : M A) : Prop :=
  Forall P (snd m).

(** Some call made by [m] satisfies [P]. *)
Definition calls_some {A : Type} (P : event -> Prop) (m : M A) : Prop :=
  Exists P (snd m).

Definition is_swap (c : contract_call) : bool :=
  match c with
  | approve _ _ _ => false
  | _ => true
  end.

(** The allowance asked for by a call that estimates or builds an
    [approve] transaction. *)
Definition approval_value (ev : event) : option Z :=
  match ev with
  | EstimateGas (approve _ _ v) _ => Some v
  | BuildTransaction (approve _ _ v) _ => Some v
  | _ => None
  end.


(** The amounts of a router call: the input (the attached value for a
    swap from the native asset) and the minimum output. *)
Definition amount_in_of (c : contract_call) (params : tx_params) : option Z :=
  match c with
  | approve _ _ _ => None
  | swapExactETHForTokens _ _ _ _ _ => tx_value params
  | swapExactTokensForETH _ a _ _ _ _ => Some a
  | swapExactTokensForTokens _ a _ _ _ _ => Some a
  end.

Definition min_out_of (c : contract_call) : option Z :=
  match c with
  | approve _ _ _ => None
  | swapExactETHForTokens _ m _ _ _ => Some m
  | swapExactTokensForETH _ _ m _ _ _ => Some m
  | swapExactTokensForTokens _ _ m _ _ _ => Some m
  end.

(** The call that constructs a swap with input [a] and minimum output [m]. *)
Definition builds_swap (a m : Z) (ev : event) : Prop :=
  match ev with
  | BuildTransaction c params => amount_in_of c params = Some a /\ min_out_of c = Some m
  | _ => False
  end.


Definition is_broadcast (ev : event) : bool :=
  match ev with
  | SendRawTransaction _ => true
  | _ => false
  end.

(** The calls of the build step of a swap: reads of the chain, and the
    gas estimate and construction of a router call. *)
Definition build_phase (ev : event) : bool :=
  match ev with
  | GetBalance _ | GetTransactionCount _ | BalanceOf _ _ | Decimals _ => true
  | EstimateGas c _ | BuildTransaction c _ => is_swap c
  | GasPrice | SignTransaction _ | SendRawTransaction _
  | WaitForTransactionReceipt _ _ => false
  end.



(** Signing, sending or awaiting a transaction. *)
Definition is_submission (ev : event) : bool :=
  match ev with
  | SignTransaction _ | SendRawTransaction _ | WaitForTransactionReceipt _ _ => true
  | _ => false
  end.

(** Estimating or constructing a transaction. *)
Definition is_construction (ev : event) : bool :=
  match ev with
  | EstimateGas _ _ | BuildTransaction _ _ => true
  | _ => false
  end.

(** The route of a router call. *)
Definition path_of (c : contract_call) : option (list string) :=
  match c with
  | approve _ _ _ => None
  | swapExactETHForTokens _ _ p _ _ => Some p
  | swapExactTokensForETH _ _ _ p _ _ => Some p
  | swapExactTokensForTokens _ _ _ p _ _ => Some p
  end.

(** The recipient of a router call. *)
Definition recipient_of (c : contract_call) : option string :=
  match c with
  | approve _ _ _ => None
  | swapExactETHForTokens _ _ _ r _ => Some r
  | swapExactTokensForETH _ _ _ _ r _ => Some r
  | swapExactTokensForTokens _ _ _ _ r _ => Some r
  end.

(** The gas limit of a constructed transaction is the fallback 300000 or
    an estimate of the chain with its margin. *)
Definition gas_is_fallback_or_estimate (w3 : Web3) (ev : event) : Prop :=
  match ev with
  | BuildTransaction c params =>
      exists gas, tx_gas params = Some gas /\
        (gas = 300000 \/
         exists params0 est, estimate_gas w3 c params0 = Return est /\
                             with_margin est = Return gas)
  | _ => True
  end.

(** The construction of the swap described by [sd]: the route of the
    call is the two checksummed addresses of the tokens, with the wrapped
    token in place of the native asset; its recipient is the destination;
    its entry point and attached value follow the kinds of the two
    tokens. *)
Definition builds_route (w3 : Web3) (from_token to_token : string) (sd : swap_data)
  (ev : event) : Prop :=
  match ev with
  | BuildTransaction c params =>
      path_of c = Some (d_path (details sd)) /\
      map Some (d_path (details sd)) =
        [ to_checksum_address w3
            (dict_item (if String.eqb from_token "ETH" then "WETH" else from_token)
                       TOKEN_ADDRESSES);
          to_checksum_address w3
            (dict_item (if String.eqb to_token "ETH" then "WETH" else to_token)
                       TOKEN_ADDRESSES) ] /\
      recipient_of c = Some (d_destination (details sd)) /\
      match c with
      | swapExactETHForTokens _ _ _ _ _ =>
          from_token = "ETH" /\ to_token <> "ETH" /\ tx_value params <> None
      | swapExactTokensForETH _ _ _ _ _ _ =>
          from_token <> "ETH" /\ to_token = "ETH" /\ tx_value params = None
      | swapExactTokensForTokens _ _ _ _ _ _ =>
          (from_token = "ETH" <-> to_token = "ETH") /\ tx_value params = None
      | approve _ _ _ => False
      end
  | _ => False
  end.

(** The transaction sent got the hash [h]. *)
Definition sent_as (w3 : Web3) (h : string) (ev : event) : Prop :=
  match ev with
  | SendRawTransaction raw => send_raw_transaction w3 raw = Return h
  | _ => False
  end.

(** The receipt of [h] was awaited for 300 seconds and had the status
    [status]. *)
Definition swap_receipt (w3 : Web3) (h : string) (status : Z) (ev : event) : Prop :=
  ev = WaitForTransactionReceipt h 300 /\
  wait_for_transaction_receipt w3 h 300 = Return status.

End Calls.

(** ** Invariants used in the proofs *)

Module Invariants.

(** The rates kept for a path are positive, and its average is a number. *)
Definition stat_ok (st : VectorStore.path_stat) : Prop :=
  Forall (fun r => PyFloat.is_nonneg r = true) (VectorStore.rates st) /\
  PyFloat.is_nan (VectorStore.avgRate st) = false.

(** The texts a pattern can match, whatever the order of the attempts. *)
Fixpoint lang (r : Re.regex) (w : list ascii) : Prop :=
  match r with
  | Re.Eps => w = []
  | Re.Cls p => exists c, w = [c] /\ p c = true
  | Re.Seq r1 r2 => exists w1 w2, w = (w1 ++ w2)%list /\ lang r1 w1 /\ lang r2 w2
  | Re.Alt r1 r2 => lang r1 w \/ lang r2 w
  | Re.Opt r1 => w = [] \/ lang r1 w
  | Re.Rep p n => Forall (fun c => p c = true) w /\ (n <= List.length w)%nat
  | Re.Group _ r1 => lang r1 w
  end.

(** The texts that group [i] of a pattern can capture. *)
Fixpoint group_lang (r : Re.regex) (i : nat) (t : list ascii) : Prop :=
  match r with
  | Re.Eps | Re.Cls _ | Re.Rep _ _ => False
  | Re.Seq r1 r2 | Re.Alt r1 r2 => group_lang r1 i t \/ group_lang r2 i t
  | Re.Opt r1 => group_lang r1 i t
  | Re.Group j r1 => (i = j /\ lang r1 t) \/ group_lang r1 i t
  end.

(** Whether group [i] takes part in every match of a pattern. *)
Fixpoint binds (r : Re.regex) (i : nat) : bool :=
  match r with
  | Re.Eps | Re.Cls _ | Re.Rep _ _ | Re.Opt _ => false
  | Re.Seq r1 r2 => binds r1 i || binds r2 i
  | Re.Alt r1 r2 => binds r1 i && binds r2 i
  | Re.Group j r1 => Nat.eqb i j || binds r1 i
  end.

(** A non-empty word of capital letters. *)
Definition capital_word (s : string) : Prop :=
  PyStr.chars s <> [] /\ Forall (fun c => PyStr.is_upper c = true) (PyStr.chars s).

(** The outcomes of an attempt after which [make_alchemy_request] goes on
    to the next attempt: a request exception, or an error reply that
    mentions a rate limit. *)
Definition retryable (o : DataFetcher.outcome) : bool :=
  match o with
  | DataFetcher.RequestException _ => true
  | DataFetcher.ErrorResponse error => PyStr.contains "rate limit" (PyStr.lower error)
  | DataFetcher.Response _ => false
  end.

(** The seconds slept during a run. *)
Fixpoint waited (t : list DataFetcher.event) : Z :=
  match t with
  | [] => 0
  | DataFetcher.Sleep seconds :: t' => seconds + waited t'
  | DataFetcher.Post _ :: t' => waited t'
  end.

(** The dictionary key of a group of the ranker. *)
Definition key_of (st : VectorStore.path_stat) : string :=
  VectorStore.ps_path st ++ " on " ++ VectorStore.ps_dex st.

Definition swap_key (swap : VectorStore.swap_info) : string :=
  VectorStore.path swap ++ " on " ++ VectorStore.dex swap.

Fixpoint total_count (l : list VectorStore.path_stat) : Z :=
  match l with
  | [] => 0
  | st :: l' => VectorStore.count st + total_count l'
  end.

(** A group counts its transactions, holds at least one, and has no more
    rates than transactions. *)
Definition group_ok (st : VectorStore.path_stat) : Prop :=
  VectorStore.count st = Z.of_nat (List.length (VectorStore.txHashes st)) /\
  1 <= VectorStore.count st /\
  (List.length (VectorStore.rates st) <= List.length (VectorStore.txHashes st))%nat.

End Invariants.

(** ** Specification-level definitions and sample collaborators *)

Module Spec.

(** The minimum output as the specification words it: the exact floor of
    [amount_in * (1 - slippage_pct / 100)]. *)
Definition min_amount_out (amount_in : Z) (slippage_pct : Q) : Z :=
  Qfloor (inject_Z amount_in * (1 - slippage_pct / 100))%Q.


(** The failure kind [UnknownToken]: one of the two messages that
    [generate_swap_transaction] raises for a symbol it does not know. *)
Definition unknown_token_error (from_token to_token : string) (e : exn) : Prop :=
  e = ValueError ("Unknown source token: " ++ from_token) \/
  e = ValueError ("Unknown destination token: " ++ to_token).

(** A symbol that is neither the native asset nor in the Registry. *)
Definition unknown_token (token : string) : Prop :=
  SwapExecutor.dict_mem token SwapExecutor.TOKEN_ADDRESSES = false /\ token <> "ETH".



(** The order of the ranking as the specification words it: [a] comes
    before [b] when its average rate is greater, or equal with a count
    that is not smaller. *)
Definition rank_ge (a b : VectorStore.path_stat) : Prop :=
  PyFloat.ltb (VectorStore.avgRate b) (VectorStore.avgRate a) = true \/
  (PyFloat.eqb (VectorStore.avgRate a) (VectorStore.avgRate b) = true /\
   VectorStore.count b <= VectorStore.count a).

(** Whether line 417 gives the exact floor at 0.5 percent for the [n]
    amounts from [a] on. *)
Fixpoint exact_upto (n : nat) (a : Z) : bool :=
  match n with
  | O => true
  | S n' =>
      match SwapExecutor.amount_out_min_of a PyFloat.half with
      | Return r => (r =? min_amount_out a (1 # 2)) && exact_upto n' (a + 1)
      | Raise _ => false
      end
  end.

End Spec.

Module Sample.

Import SwapExecutor.

(** A chain on which every call succeeds. *)
Definition w3 : Web3 :=
  {| to_checksum_address := fun a => Some a;
     to_wei_ether := fun x => result_bind (PyFloat.to_int x) (fun n => Return (n * 10 ^ 18));
     time := PyFloat.const 1700000000;
     get_balance := fun _ => Return (5 * 10 ^ 18);
     gas_price := Return 30000000000;
     get_transaction_count := fun _ => Return 7;
     balanceOf := fun _ _ => Return (10 ^ 24);
     decimals := fun _ => Return 18%N;
     estimate_gas := fun _ _ => Return 150000;
     build_transaction := fun c p => Return {| tx_call := c; tx_fields := p |};
     sign_transaction := fun _ _ => Return "0xf86b";
     send_raw_transaction := fun _ => Return "0x5c50";
     wait_for_transaction_receipt := fun _ _ => Return 1 |}.

Definition alice : wallet :=
  {| w_address := "0x52908400098527886E0F7030069857D2E4169EE7"; w_key := "0x01" |}.

Definition live : SwapExecutor :=
  {| test_mode := false; chain_id := 1; account := Some alice |}.

Definition simulated : SwapExecutor :=
  {| test_mode := true; chain_id := 1; account := Some alice |}.

Definition read_only : SwapExecutor :=
  {| test_mode := true; chain_id := 1; account := None |}.

(** A language model that answers every prompt with the same text. *)
Definition advisor (text : string) : QueryEngine.collaborators :=
  {| QueryEngine.generate_swap_advice := fun _ => text;
     QueryEngine.retrieve_similar_swaps := fun _ => Return [];
     QueryEngine.get_1inch_swap_data := fun _ _ _ => None |}.

(** Matches of the similarity search: five swaps on path A and nine on
    path B at rate 2.0, one on path C at rate 3.0. *)
Definition swap_on (p : string) (rate : Z) : VectorStore.swap_info :=
  {| VectorStore.txHash := "0x00"; VectorStore.dex := "Uniswap V2";
     VectorStore.path := p; VectorStore.swapRate := PyFloat.const rate |}.

Definition matches : list VectorStore.swap_info :=
  (repeat (swap_on "A" 2) 5 ++ repeat (swap_on "B" 2) 9 ++ [swap_on "C" 3])%list.

(** An advice text whose closing block follows the template of the
    prompt, comment included. *)
Definition advice_with_comment : string :=
  "Route the swap through Uniswap V3. {" ++
  PyStr.dq ++ "from_token" ++ PyStr.dq ++ ": " ++ PyStr.dq ++ "ETH" ++ PyStr.dq ++ ", " ++
  PyStr.dq ++ "to_token" ++ PyStr.dq ++ ": " ++ PyStr.dq ++ "USDC" ++ PyStr.dq ++ ", " ++
  PyStr.dq ++ "amount" ++ PyStr.dq ++ ": 1.0, " ++
  PyStr.dq ++ "dex" ++ PyStr.dq ++ ": " ++ PyStr.dq ++ "Uniswap V3" ++ PyStr.dq ++
  ",  // or the recommended DEX " ++
  PyStr.dq ++ "slippage" ++ PyStr.dq ++ ": 0.5}".

(** The same block without the comment. *)
Definition advice_with_block : string :=
  "Route the swap through Uniswap V3. {" ++
  PyStr.dq ++ "from_token" ++ PyStr.dq ++ ": " ++ PyStr.dq ++ "ETH" ++ PyStr.dq ++ ", " ++
  PyStr.dq ++ "to_token" ++ PyStr.dq ++ ": " ++ PyStr.dq ++ "USDC" ++ PyStr.dq ++ ", " ++
  PyStr.dq ++ "amount" ++ PyStr.dq ++ ": 1, " ++
  PyStr.dq ++ "dex" ++ PyStr.dq ++ ": " ++ PyStr.dq ++ "Uniswap V3" ++ PyStr.dq ++ ", " ++
  PyStr.dq ++ "slippage" ++ PyStr.dq ++ ": 0.5}".

(** An advisor whose similarity search cannot reach the index:
    [connect_to_pinecone] raises. *)
Definition disconnected (text : string) : QueryEngine.collaborators :=
  {| QueryEngine.generate_swap_advice := fun _ => text;
     QueryEngine.retrieve_similar_swaps :=
       fun _ => Raise (CollaboratorError "Pinecone connection error");
     QueryEngine.get_1inch_swap_data := fun _ _ _ => None |}.

(** A node that answers no balance query. *)
Definition unreachable : SwapExecutor.Web3 :=
  {| SwapExecutor.to_checksum_address := SwapExecutor.to_checksum_address w3;
     SwapExecutor.to_wei_ether := SwapExecutor.to_wei_ether w3;
     SwapExecutor.time := SwapExecutor.time w3;
     SwapExecutor.get_balance := fun _ => Raise (CollaboratorError "connection lost");
     SwapExecutor.gas_price := SwapExecutor.gas_price w3;
     SwapExecutor.get_transaction_count := SwapExecutor.get_transaction_count w3;
     SwapExecutor.balanceOf := SwapExecutor.balanceOf w3;
     SwapExecutor.decimals := SwapExecutor.decimals w3;
     SwapExecutor.estimate_gas := SwapExecutor.estimate_gas w3;
     SwapExecutor.build_transaction := SwapExecutor.build_transaction w3;
     SwapExecutor.sign_transaction := SwapExecutor.sign_transaction w3;
     SwapExecutor.send_raw_transaction := SwapExecutor.send_raw_transaction w3;
     SwapExecutor.wait_for_transaction_receipt :=
       SwapExecutor.wait_for_transaction_receipt w3 |}.

(** [Account.from_key] for the sample wallet: every key opens it. *)
Definition from_key (k : string) : result SwapExecutor.wallet :=
  Return {| SwapExecutor.w_address := SwapExecutor.w_address alice;
            SwapExecutor.w_key := k |}.

Definition nobody : SwapExecutor.terminal :=
  {| SwapExecutor.typed_key := ""; SwapExecutor.typed_confirmation := "n" |}.

End Sample.

(* ===== theorems ===== *)

(** * Theorems *)

(** ** The executor: reasoning on the calls of a computation *)

Section CallsAll.

Import SwapExecutor Calls.

Variable P : event -> Prop.

Lemma calls_all_ret {A : Type} (a : A) : calls_all P (ret a).
Proof. constructor. Qed.

Lemma calls_all_raise {A : Type} (e : exn) : calls_all P (@raise A e).
Proof. constructor. Qed.

Lemma calls_all_pure {A : Type} (r : result A) : calls_all P (pure r).
Proof. constructor. Qed.

Lemma calls_all_call {A : Type} (ev : event) (r : result A) :
  P ev -> calls_all P (call ev r).
Proof. intro H. constructor; [exact H | constructor]. Qed.

Lemma calls_all_bind {A B : Type} (m : M A) (f : A -> M B) :
  calls_all P m -> (forall a, fst m = Return a -> calls_all P (f a)) ->
  calls_all P (bind m f).
Proof.
  unfold calls_all, bind. intros Hm Hf.
  destruct m as [[a | e] t]; simpl in *.
  - specialize (Hf a eq_refl). destruct (f a) as [r t']. simpl in *.
    apply Forall_app. split; assumption.
  - exact Hm.
Qed.

Lemma calls_all_try_except {A : Type} (m h : M A) :
  calls_all P m -> calls_all P h -> calls_all P (try_except m h).
Proof.
  unfold calls_all, try_except. intros Hm Hh.
  destruct m as [[a | e] t]; [exact Hm | ].
  destruct h as [r t']. simpl in *. apply Forall_app; split; assumption.
Qed.

Lemma calls_all_checksum (w3 : Web3) (a : string) : calls_all P (checksum w3 a).
Proof. unfold checksum. destruct (to_checksum_address w3 a); constructor. Qed.

Lemma calls_some_bind_left {A B : Type} (m : M A) (f : A -> M B) :
  calls_some P m -> calls_some P (bind m f).
Proof.
  unfold calls_some, bind. intro H.
  destruct m as [[a | e] t]; [ | exact H].
  destruct (f a) as [r t']. simpl in *. apply Exists_app. left. exact H.
Qed.

Lemma calls_some_bind_right {A B : Type} (m : M A) (f : A -> M B) (a : A) :
  fst m = Return a -> calls_some P (f a) -> calls_some P (bind m f).
Proof.
  unfold calls_some, bind. destruct m as [r t]. simpl. intros -> H.
  destruct (f a) as [r' t']. simpl in *. apply Exists_app. right. exact H.
Qed.

Lemma calls_some_call {A : Type} (ev : event) (r : result A) :
  P ev -> calls_some P (call ev r).
Proof. intro H. left. exact H. Qed.

End CallsAll.

Lemma bind_returns {A B : Type} (m : SwapExecutor.M A) (f : A -> SwapExecutor.M B) (b : B) :
  fst (SwapExecutor.bind m f) = Return b ->
  exists a, fst m = Return a /\ fst (f a) = Return b.
Proof.
  unfold SwapExecutor.bind. destruct m as [[a | e] t]; simpl; intro H.
  - exists a. split; [reflexivity | ]. destruct (f a). exact H.
  - discriminate.
Qed.

Lemma bind_raises {A B : Type} (m : SwapExecutor.M A) (f : A -> SwapExecutor.M B) (e : exn) :
  m = (Raise e, []) -> SwapExecutor.bind m f = (Raise e, []).
Proof. intros ->. reflexivity. Qed.

Lemma bind_ret_l {A B : Type} (a : A) (f : A -> SwapExecutor.M B) :
  SwapExecutor.bind (SwapExecutor.ret a) f = f a.
Proof. unfold SwapExecutor.bind, SwapExecutor.ret. destruct (f a); reflexivity. Qed.

Lemma bind_after_return {A B : Type} (m : SwapExecutor.M A) (f : A -> SwapExecutor.M B) (a : A) :
  fst m = Return a -> fst (SwapExecutor.bind m f) = fst (f a).
Proof.
  unfold SwapExecutor.bind. destruct m as [r t]. simpl. intros ->.
  destruct (f a); reflexivity.
Qed.

Ltac calls_step :=
  match goal with
  | |- Calls.calls_all _ (SwapExecutor.bind _ _) => apply calls_all_bind; [ | intros ? ? ]
  | |- Calls.calls_all _ (SwapExecutor.ret _) => apply calls_all_ret
  | |- Calls.calls_all _ (SwapExecutor.raise _) => apply calls_all_raise
  | |- Calls.calls_all _ (SwapExecutor.pure _) => apply calls_all_pure
  | |- Calls.calls_all _ (SwapExecutor.checksum _ _) => apply calls_all_checksum
  | |- Calls.calls_all _ (SwapExecutor.call _ _) => apply calls_all_call
  | |- Calls.calls_all _ (SwapExecutor.try_except _ _) => apply calls_all_try_except
  | |- Calls.calls_all _ (if ?b then _ else _) => destruct b eqn:?
  | |- Calls.calls_all _ (match ?x with _ => _ end) => destruct x eqn:?
  end.

Ltac calls_auto := repeat calls_step.

(** Follows a run that returns through its next step, keeping a goal on
    its later calls in step. *)
Ltac returns_step H :=
  match type of H with
  | fst (SwapExecutor.bind ?m ?f) = Return _ =>
      let a := fresh "a" in
      let Ha := fresh "Ha" in
      apply bind_returns in H; destruct H as (a & Ha & H);
      try apply (calls_some_bind_right _ _ _ a Ha)
  | fst (if ?b then _ else _) = Return _ => destruct b eqn:?; try discriminate H
  | fst (match ?x with _ => _ end) = Return _ => destruct x eqn:?; try discriminate H
  end.

Section Executor.

Import SwapExecutor Calls.

Variable self : SwapExecutor.
Variable w3 : Web3.

Lemma get_token_balance_calls (token_symbol : string) :
  calls_all (fun ev => build_phase ev = true) (get_token_balance self w3 token_symbol).
Proof. unfold get_token_balance. calls_auto; reflexivity. Qed.

Lemma gas_limit_calls (c : contract_call) (params : tx_params) :
  is_swap c = true ->
  calls_all (fun ev => build_phase ev = true) (gas_limit w3 c params).
Proof. intro Hc. unfold gas_limit. calls_auto. exact Hc. Qed.

(** The build step only reads the chain and estimates and constructs a
    router call. *)
Lemma generate_swap_transaction_calls from_token to_token amount dex_name slippage dest :
  calls_all (fun ev => build_phase ev = true)
    (generate_swap_transaction self w3 from_token to_token amount dex_name slippage dest).
Proof.
  unfold generate_swap_transaction.
  repeat first
    [ apply get_token_balance_calls
    | apply gas_limit_calls
    | calls_step ];
  try reflexivity;
  simpl;
  repeat match goal with
         | |- context [if ?b then _ else _] => destruct b
         end;
  reflexivity.
Qed.

End Executor.

Section ExecutorClaims.

Import SwapExecutor Calls.




(** The claim C4 as the specification states it fails without a wallet:
    the unknown symbol is then never looked at. *)
Lemma unknown_token_without_wallet :
  Spec.unknown_token "FOO" /\
  exists e,
    generate_swap_transaction Sample.read_only Sample.w3 "FOO" "ETH"
      (PyFloat.const 1) "Uniswap V2" PyFloat.half None = (Raise e, []) /\
    ~ Spec.unknown_token_error "FOO" "ETH" e.
Proof.
  split; [split; [reflexivity | discriminate] | ].
  exists no_wallet. split; [reflexivity | ].
  intros [H | H]; discriminate H.
Qed.

(** C4, amended.  With an unknown source or destination symbol,
    [generate_swap_transaction] raises without a single call to the chain,
    so that nothing is constructed; the exception is the unknown-token
    error when a wallet is connected and the destination is a valid
    address, and else the error of the earlier check. *)
Theorem generate_swap_transaction_unknown_token :
  forall (self : SwapExecutor) (w3 : Web3) (from_token to_token : string)
         (amount : PyFloat.float) (dex_name : string) (slippage : PyFloat.float)
         (dest : option string),
    Spec.unknown_token from_token \/ Spec.unknown_token to_token ->
    let run := generate_swap_transaction self w3 from_token to_token amount dex_name
                 slippage dest in
    (exists e, run = (Raise e, [])) /\
    (forall acct,
       account self = Some acct ->
       (PyStr.truthy (default_destination acct dest) = true ->
        to_checksum_address w3 (default_destination acct dest) <> None) ->
       exists e, run = (Raise e, []) /\ Spec.unknown_token_error from_token to_token e).
Proof.
  intros self w3 from_token to_token amount dex_name slippage dest Hunk run.
  assert (Hcheck :
    (negb (dict_mem from_token TOKEN_ADDRESSES) && negb (String.eqb from_token "ETH") = true) \/
    (negb (dict_mem from_token TOKEN_ADDRESSES) && negb (String.eqb from_token "ETH") = false /\
     negb (dict_mem to_token TOKEN_ADDRESSES) && negb (String.eqb to_token "ETH") = true)).
  { destruct (negb (dict_mem from_token TOKEN_ADDRESSES) && negb (String.eqb from_token "ETH"))
      eqn:E; [left; reflexivity | right; split; [reflexivity | ]].
    destruct Hunk as [[Hm Hne] | [Hm Hne]].
    - rewrite Hm in E. apply String.eqb_neq in Hne. rewrite Hne in E. discriminate E.
    - rewrite Hm. apply String.eqb_neq in Hne. rewrite Hne. reflexivity. }
  subst run. unfold generate_swap_transaction.
  destruct (account self) as [acct | ].
  - split.
    + destruct (PyStr.truthy (default_destination acct dest));
        [destruct (to_checksum_address w3 (default_destination acct dest)) | ];
        try rewrite bind_ret_l;
        try (eexists; reflexivity);
        destruct Hcheck as [-> | [-> ->]]; eexists; reflexivity.
    + intros acct' Hacct Hvalid. injection Hacct as <-.
      destruct (PyStr.truthy (default_destination acct dest));
        [destruct (to_checksum_address w3 (default_destination acct dest));
           [ | exfalso; apply Hvalid; reflexivity] | ];
        rewrite bind_ret_l;
        destruct Hcheck as [-> | [-> ->]]; eexists;
        (split; [reflexivity | ]); [left | right | left | right]; reflexivity.
  - split; [eexists; reflexivity | intros acct Hacct; discriminate Hacct].
Qed.

Lemma generate_swap_transaction_unknown_token_witness :
  exists e,
    generate_swap_transaction Sample.live Sample.w3 "FOO" "ETH" (PyFloat.const 1)
      "Uniswap V2" PyFloat.half None = (Raise e, []) /\
    Spec.unknown_token_error "FOO" "ETH" e.
Proof.
  assert (Hunk : Spec.unknown_token "FOO" \/ Spec.unknown_token "ETH")
    by (left; split; [reflexivity | discriminate]).
  apply (proj2 (generate_swap_transaction_unknown_token Sample.live Sample.w3 "FOO" "ETH"
                  (PyFloat.const 1) "Uniswap V2" PyFloat.half None Hunk)
           Sample.alice eq_refl).
  intros _ H. discriminate H.
Defined.


(** The claim C5 as the specification states it fails when the build
    step fails: a simulated swap of more than the balance raises. *)
Lemma simulated_swap_can_raise :
  let run := execute_swap Sample.simulated Sample.w3 "ETH" "USDC" (PyFloat.const 9)
               "Uniswap V2" PyFloat.half None (Some true) in
  fst run = Raise (ValueError "Insufficient ETH balance") /\
  fst run <> Return (Some "test_tx_hash").
Proof. vm_compute. split; [reflexivity | discriminate]. Qed.

(** C5, amended.  In simulate mode [execute_swap] never calls
    [send_raw_transaction]; when the build step returns it returns the
    placeholder ["test_tx_hash"], and it returns nothing else; when the
    build step raises, so does [execute_swap]. *)
Theorem execute_swap_simulated :
  forall (self : SwapExecutor) (w3 : Web3) (from_token to_token : string)
         (amount : PyFloat.float) (dex_name : string) (slippage : PyFloat.float)
         (dest : option string) (test_mode_arg : option bool),
    match test_mode_arg with Some b => b | None => test_mode self end = true ->
    let build := generate_swap_transaction self w3 from_token to_token amount dex_name
                   slippage dest in
    let run := execute_swap self w3 from_token to_token amount dex_name slippage dest
                 test_mode_arg in
    calls_all (fun ev => is_broadcast ev = false) run /\
    (forall sd, fst build = Return sd -> fst run = Return (Some "test_tx_hash")) /\
    (forall r, fst run = Return r -> r = Some "test_tx_hash") /\
    (forall e, fst build = Raise e -> fst run = Raise e).
Proof.
  intros self w3 from_token to_token amount dex_name slippage dest test_mode_arg Hmode
         build run.
  subst build run. unfold execute_swap. rewrite Hmode.
  destruct (account self) as [acct | ] eqn:Hacct.
  - repeat split.
    + apply calls_all_bind; [ | intros; apply calls_all_ret].
      eapply Forall_impl; [ | apply generate_swap_transaction_calls].
      intros ev Hev. destruct ev; simpl in *; try reflexivity; discriminate Hev.
    + intros sd Hsd. rewrite (bind_after_return _ _ sd Hsd). reflexivity.
    + intros r H. apply bind_returns in H. destruct H as (sd & _ & H).
      injection H as <-. reflexivity.
    + intros e He. unfold bind.
      destruct (generate_swap_transaction self w3 from_token to_token amount dex_name
                  slippage dest) as [r t].
      simpl in He. subst r. reflexivity.
  - repeat split.
    + apply calls_all_raise.
    + unfold generate_swap_transaction. rewrite Hacct. discriminate.
    + discriminate.
    + unfold generate_swap_transaction. rewrite Hacct. intros e H.
      injection H as <-. reflexivity.
Qed.

Lemma execute_swap_simulated_witness :
  fst (execute_swap Sample.simulated Sample.w3 "ETH" "USDC" (PyFloat.const 2)
         "Uniswap V2" PyFloat.half None None) = Return (Some "test_tx_hash").
Proof.
  eapply (proj1 (proj2 (execute_swap_simulated Sample.simulated Sample.w3 "ETH" "USDC"
                          (PyFloat.const 2) "Uniswap V2" PyFloat.half None None eq_refl))).
  vm_compute. reflexivity.
Defined.




End ExecutorClaims.

(** ** The minimum output of a built swap *)

Section MinimumOutput.

Import SwapExecutor Calls.

(** The claim C3 as the specification states it fails: a swap of
    0.000100000000000001 DAI (100000000000001 units) at 0.5 percent is
    built with the minimum output 99500000000001, one more than the exact
    floor 99500000000000. *)
Lemma min_amount_out_above_exact_floor :
  let amount := PyFloat.of_decimal (PyStr.chars "0") (PyStr.chars "000100000000000001") in
  let run := generate_swap_transaction Sample.live Sample.w3 "DAI" "ETH" amount
               "Uniswap V2" PyFloat.half None in
  calls_some (builds_swap 100000000000001 99500000000001) run /\
  Spec.min_amount_out 100000000000001 (1 # 2) = 99500000000000 /\
  99500000000001 <> Spec.min_amount_out 100000000000001 (1 # 2).
Proof.
  split; [ | split; [vm_compute; reflexivity | vm_compute; discriminate]].
  vm_compute.
  repeat first [ apply Exists_cons_hd; split; reflexivity | apply Exists_cons_tl ].
Qed.

Lemma exact_upto_sound (n : nat) :
  forall a, Spec.exact_upto n a = true ->
  forall b, a <= b < a + Z.of_nat n ->
  amount_out_min_of b PyFloat.half = Return (Spec.min_amount_out b (1 # 2)).
Proof.
  induction n as [ | n IH]; intros a H b Hb; [lia | ].
  cbn [Spec.exact_upto] in H.
  destruct (amount_out_min_of a PyFloat.half) as [r | e] eqn:E; [ | discriminate H].
  apply andb_true_iff in H. destruct H as [Hr Hn].
  destruct (Z.eq_dec b a) as [-> | Hne].
  - apply Z.eqb_eq in Hr. rewrite E, Hr. reflexivity.
  - apply (IH (a + 1) Hn). lia.
Qed.

Lemma Exists_exists_swap {A : Type} (Q : Z -> Prop) (m : Z) (run : M A) :
  calls_some (fun ev => exists a, Q a /\ builds_swap a m ev) run ->
  exists a, Q a /\ calls_some (builds_swap a m) run.
Proof.
  unfold calls_some. induction 1 as [ev l (a & Hq & Hb) | ev l _ (a & Hq & Hl)].
  - exists a. split; [exact Hq | left; exact Hb].
  - exists a. split; [exact Hq | right; exact Hl].
Qed.

(** C3, amended.  The minimum output of a built swap is the value of
    [int(amount_in * (1 - slippage / 100))] in binary64 arithmetic, where
    [amount_in] is the input amount of the constructed router call.  It is
    the exact floor for [amount_in = 1_000_000] and [slippage = 0.5]
    (995000), and for every [amount_in] up to 3000 at that slippage; it is
    not the exact floor for every input. *)
Theorem min_amount_out_of_built_swap :
  (forall (self : SwapExecutor) (w3 : Web3) (from_token to_token : string)
          (amount : PyFloat.float) (dex_name : string) (slippage : PyFloat.float)
          (dest : option string) (sd : swap_data),
     let run := generate_swap_transaction self w3 from_token to_token amount dex_name
                  slippage dest in
     fst run = Return sd ->
     exists amount_in,
       amount_out_min_of amount_in slippage = Return (d_min_amount_out (details sd)) /\
       calls_some (builds_swap amount_in (d_min_amount_out (details sd))) run) /\
  amount_out_min_of 1000000 PyFloat.half = Return 995000 /\
  Spec.min_amount_out 1000000 (1 # 2) = 995000 /\
  (forall amount_in, 0 <= amount_in <= 3000 ->
     amount_out_min_of amount_in PyFloat.half =
     Return (Spec.min_amount_out amount_in (1 # 2))).
Proof.
  split; [ | split; [vm_compute; reflexivity | split; [vm_compute; reflexivity | ]]].
  - intros self w3 from_token to_token amount dex_name slippage dest sd run H.
    apply Exists_exists_swap.
    subst run. unfold generate_swap_transaction in *.
    destruct (account self) as [acct | ]; [ | discriminate H].
    do 16 returns_step H.
    apply bind_returns in H. destruct H as (tx & Htx & H).
    injection H as <-. cbn [details d_min_amount_out].
    apply calls_some_bind_left, calls_some_call.
    match goal with
    | Hm : fst (pure (amount_out_min_of ?a _)) = Return _ |- _ =>
        exists a; split; [exact Hm | ]
    end.
    simpl.
    repeat match goal with
           | |- context [if ?b then _ else _] => destruct b
           end;
      simpl; split; reflexivity.
  - intros amount_in Hrange.
    apply (exact_upto_sound 3001 0); [vm_compute; reflexivity | lia].
Qed.

Lemma min_amount_out_of_built_swap_witness :
  exists sd amount_in,
    fst (generate_swap_transaction Sample.simulated Sample.w3 "ETH" "USDC"
           (PyFloat.const 2) "Uniswap V2" PyFloat.half None) = Return sd /\
    amount_out_min_of amount_in PyFloat.half = Return (d_min_amount_out (details sd)) /\
    calls_some (builds_swap amount_in (d_min_amount_out (details sd)))
      (generate_swap_transaction Sample.simulated Sample.w3 "ETH" "USDC"
         (PyFloat.const 2) "Uniswap V2" PyFloat.half None).
Proof.
  assert (E : exists sd,
             fst (generate_swap_transaction Sample.simulated Sample.w3 "ETH" "USDC"
                    (PyFloat.const 2) "Uniswap V2" PyFloat.half None) = Return sd)
    by (vm_compute; eexists; reflexivity).
  destruct E as [sd E].
  destruct (proj1 min_amount_out_of_built_swap Sample.simulated Sample.w3 "ETH" "USDC"
              (PyFloat.const 2) "Uniswap V2" PyFloat.half None sd E) as (a & H1 & H2).
  exists sd, a. split; [exact E | split; [exact H1 | exact H2]].
Defined.

End MinimumOutput.

(** ** The chain-data request *)

Section ChainData.

Import DataFetcher.




End ChainData.

(** ** Floats: signs and order *)

Section FloatFacts.

Import PyFloat.

Lemma shr_1_nonneg (mrs : shr_record) : 0 <= shr_m mrs -> 0 <= shr_m (shr_1 mrs).
Proof.
  destruct mrs as [m r s]. simpl. intro H.
  destruct m as [ | [p | p | ] | p]; simpl; lia.
Qed.

Lemma iter_pos_invariant {A : Type} (P : A -> Prop) (f : A -> A) :
  (forall x, P x -> P (f x)) -> forall n x, P x -> P (iter_pos f n x).
Proof.
  intros Hf. induction n as [n IH | n IH | ]; intros x Hx; simpl; auto.
Qed.

Lemma shr_nonneg (mrs : shr_record) (e n : Z) :
  0 <= shr_m mrs -> 0 <= shr_m (fst (shr mrs e n)).
Proof.
  intro H. unfold shr. destruct n; simpl; try exact H.
  apply iter_pos_invariant; [apply shr_1_nonneg | exact H].
Qed.

Lemma shr_fexp_nonneg (m e : Z) (l : location) :
  0 <= m -> 0 <= shr_m (fst (shr_fexp prec emax m e l)).
Proof.
  intro H. unfold shr_fexp. apply shr_nonneg.
  destruct l as [ | [ | | ]]; exact H.
Qed.

Lemma round_nearest_even_nonneg (m : Z) (l : location) :
  0 <= m -> 0 <= round_nearest_even m l.
Proof.
  intro H. destruct l as [ | [ | | ]]; simpl; try exact H; [ | lia].
  destruct (Z.even m); lia.
Qed.

(** Rounding a non-negative mantissa never gives NaN and keeps the sign. *)
Lemma binary_round_aux_sign (mx ex : Z) (lx : location) :
  0 <= mx -> is_nonneg (binary_round_aux prec emax false mx ex lx) = true.
Proof.
  intro H. unfold binary_round_aux.
  pose proof (shr_fexp_nonneg mx ex lx H) as H1.
  destruct (shr_fexp prec emax mx ex lx) as [mrs' e']. simpl in H1.
  pose proof (shr_fexp_nonneg _ e' loc_Exact
                (round_nearest_even_nonneg _ (loc_of_shr_record mrs') H1)) as H2.
  destruct (shr_fexp prec emax (round_nearest_even (shr_m mrs') (loc_of_shr_record mrs'))
              e' loc_Exact) as [mrs'' e''].
  simpl in H2. destruct (shr_m mrs'') as [ | p | p]; [reflexivity | | lia].
  destruct (e'' <=? emax - prec); reflexivity.
Qed.

Lemma binary_round_sign (m : positive) (e : Z) :
  is_nonneg (binary_round prec emax false m e) = true.
Proof.
  unfold binary_round. destruct (shl_align m e _) as [mz ez].
  apply binary_round_aux_sign. lia.
Qed.

Lemma add_nonneg (x y : float) :
  is_nonneg x = true -> is_nonneg y = true -> is_nonneg (add x y) = true.
Proof.
  unfold add.
  destruct x as [sx | [ | ] | | [ | ] mx ex]; try discriminate;
  destruct y as [sy | [ | ] | | [ | ] my ey]; try discriminate;
  intros _ _; try reflexivity.
  - destruct sx, sy; reflexivity.
  - unfold SFadd. cbn [cond_Zopp Z.add]. unfold binary_normalize.
    apply binary_round_sign.
Qed.

Lemma div_nonneg (x : float) (m : positive) (e : Z) :
  is_nonneg x = true -> is_nonneg (SFdiv prec emax x (S754_finite false m e)) = true.
Proof.
  destruct x as [sx | [ | ] | | [ | ] mx ex]; try discriminate; intros _;
    try reflexivity.
  unfold SFdiv, SFdiv_core_binary.
  match goal with
  | |- context [Z.div_eucl ?a ?b] =>
      pose proof (Z_div_mod a b eq_refl) as Hdiv;
      assert (Ha : 0 <= a);
      [ | destruct (Z.div_eucl a b) as [q r] ]
  end.
  - match goal with
    | |- 0 <= match ?s with _ => _ end => destruct s
    end; try lia.
    apply Z.shiftl_nonneg. lia.
  - apply binary_round_aux_sign. destruct Hdiv as [Hq Hr]. nia.
Qed.

Lemma positive_nonneg (r : float) : ltb zero r = true -> is_nonneg r = true.
Proof. destruct r as [s | [ | ] | | [ | ] m e]; simpl; try discriminate; reflexivity. Qed.

Lemma nonneg_not_nan (x : float) : is_nonneg x = true -> is_nan x = false.
Proof. destruct x as [s | [ | ] | | [ | ] m e]; simpl; try discriminate; reflexivity. Qed.

Lemma SFcompare_antisym (x y : float) (c : comparison) :
  SFcompare x y = Some c -> SFcompare y x = Some (CompOpp c).
Proof.
  destruct x as [sx | [ | ] | | sx mx ex], y as [sy | [ | ] | | sy my ey];
    simpl; intro H; try discriminate H;
    try (injection H as <-; reflexivity);
    try (destruct sx; injection H as <-; reflexivity);
    try (destruct sy; injection H as <-; reflexivity).
  injection H as <-. f_equal.
  destruct sx, sy; try reflexivity;
    rewrite (Z.compare_antisym ex ey);
    destruct (ex ?= ey); simpl; try reflexivity;
    rewrite (Pos.compare_cont_antisym mx my Eq); simpl;
    try rewrite CompOpp_involutive; reflexivity.
Qed.

Lemma SFcompare_defined (x y : float) :
  is_nan x = false -> is_nan y = false -> SFcompare x y <> None.
Proof.
  destruct x as [sx | [ | ] | | sx mx ex], y as [sy | [ | ] | | sy my ey];
    simpl; intros Hx Hy; try discriminate.
Qed.

End FloatFacts.

(** ** The historical path ranker *)

Section Ranker.

Import VectorStore Invariants.

Lemma add_swap_ok (swap : swap_info) (st : path_stat) :
  stat_ok st -> stat_ok (add_swap swap st).
Proof.
  intros [Hr Ha]. split; [ | exact Ha]. simpl.
  destruct (PyFloat.ltb PyFloat.zero (swapRate swap)) eqn:E; [ | exact Hr].
  apply Forall_app. split; [exact Hr | ].
  constructor; [apply positive_nonneg; exact E | constructor].
Qed.

Lemma upsert_ok (key : string) (init : path_stat) (f : path_stat -> path_stat)
  (d : stats_dict) :
  (forall st, stat_ok st -> stat_ok (f st)) -> stat_ok init ->
  Forall (fun kv => stat_ok (snd kv)) d ->
  Forall (fun kv => stat_ok (snd kv)) (upsert key init f d).
Proof.
  intros Hf Hi. induction 1 as [ | [k v] d Hv Hd IH]; simpl.
  - constructor; [apply Hf; exact Hi | constructor].
  - destruct (String.eqb k key); constructor;
      [simpl; apply Hf; exact Hv | exact Hd | exact Hv | exact IH].
Qed.

Lemma record_swaps_ok (swaps : list swap_info) :
  forall d, Forall (fun kv => stat_ok (snd kv)) d ->
  Forall (fun kv => stat_ok (snd kv)) (fold_left record_swap swaps d).
Proof.
  induction swaps as [ | swap swaps IH]; intros d Hd; simpl; [exact Hd | ].
  apply IH. unfold record_swap. apply upsert_ok; [apply add_swap_ok | | exact Hd].
  split; [constructor | reflexivity].
Qed.

Lemma sum_nonneg (l : list PyFloat.float) :
  Forall (fun r => PyFloat.is_nonneg r = true) l ->
  forall acc, PyFloat.is_nonneg acc = true ->
  PyFloat.is_nonneg (fold_left PyFloat.add l acc) = true.
Proof.
  induction 1 as [ | r l Hr Hl IH]; intros acc Hacc; simpl; [exact Hacc | ].
  apply IH. apply add_nonneg; assumption.
Qed.

Lemma of_int_positive (n : Z) (x : PyFloat.float) :
  0 < n -> PyFloat.of_int n = Return x ->
  PyFloat.is_nonneg x = true /\ PyFloat.is_finite x = true.
Proof.
  intros Hn. unfold PyFloat.of_int.
  destruct n as [ | p | p]; try lia.
  pose proof (binary_round_sign p 0) as H.
  unfold binary_normalize.
  destruct (PyFloat.is_finite _) eqn:F; [ | discriminate].
  intro E. injection E as <-. split; assumption.
Qed.

Lemma set_average_number (st st' : path_stat) :
  stat_ok st -> set_average st = Return st' -> PyFloat.is_nan (avgRate st') = false.
Proof.
  intros [Hr Ha]. unfold set_average.
  destruct (rates st) as [ | r l] eqn:E.
  - intro H. injection H as <-. exact Ha.
  - destruct (PyFloat.of_int (Z.of_nat (List.length (r :: l)))) as [n | e] eqn:En;
      [ | discriminate].
    apply of_int_positive in En; [ | simpl; lia].
    destruct En as [Hn Hf].
    cbn [result_bind]. unfold PyFloat.div.
    destruct n as [s | [ | ] | | [ | ] m e]; try discriminate.
    cbn [result_bind]. intro H. injection H as <-. cbn [avgRate].
    apply nonneg_not_nan, div_nonneg.
    unfold sum. apply sum_nonneg; [exact Hr | reflexivity].
Qed.

Lemma set_averages_numbers (l l' : list path_stat) :
  Forall stat_ok l -> set_averages l = Return l' ->
  Forall (fun st => PyFloat.is_nan (avgRate st) = false) l'.
Proof.
  intro H. revert l'. induction H as [ | st l Hst Hl IH]; intros l' E; simpl in E.
  - injection E as <-. constructor.
  - destruct (set_average st) as [st' | e] eqn:E1; [ | discriminate].
    cbn [result_bind] in E.
    destruct (set_averages l) as [l'' | e] eqn:E2; [ | discriminate].
    cbn [result_bind] in E. injection E as <-.
    constructor; [exact (set_average_number st st' Hst E1) | apply IH; reflexivity].
Qed.

Lemma key_lt_asym (a b : path_stat) : key_lt a b = true -> key_lt b a = false.
Proof.
  unfold key_lt, PyFloat.eqb, PyFloat.ltb, SFeqb, SFltb.
  destruct (SFcompare (avgRate a) (avgRate b)) as [c | ] eqn:E; [ | discriminate].
  rewrite (SFcompare_antisym _ _ _ E).
  destruct c; simpl; try discriminate; [ | reflexivity].
  intro H. apply Z.ltb_lt in H. apply Z.ltb_ge. lia.
Qed.

(** Between numbers, "not below" is the order of the ranking. *)
Lemma not_key_lt_rank_ge (a b : path_stat) :
  PyFloat.is_nan (avgRate a) = false -> PyFloat.is_nan (avgRate b) = false ->
  key_lt a b = false -> Spec.rank_ge a b.
Proof.
  intros Ha Hb. unfold key_lt, Spec.rank_ge, PyFloat.eqb, PyFloat.ltb, SFeqb, SFltb.
  pose proof (SFcompare_defined _ _ Ha Hb) as Hd.
  destruct (SFcompare (avgRate a) (avgRate b)) as [c | ] eqn:E; [ | contradiction].
  rewrite (SFcompare_antisym _ _ _ E).
  destruct c; simpl; intro H; try discriminate H.
  - right. split; [reflexivity | apply Z.ltb_ge in H; exact H].
  - left. reflexivity.
Qed.

Lemma insert_desc_sorted (x : path_stat) (l : list path_stat) :
  Sorted (fun a b => key_lt a b = false) l ->
  Sorted (fun a b => key_lt a b = false) (insert_desc x l).
Proof.
  induction 1 as [ | y l Hl IH Hy]; simpl.
  - constructor; constructor.
  - destruct (key_lt x y) eqn:E.
    + constructor; [exact IH | ].
      destruct Hy as [ | z l Hz]; simpl.
      * constructor. apply key_lt_asym. exact E.
      * destruct (key_lt x z); constructor;
          [exact Hz | apply key_lt_asym; exact E].
    + constructor; [constructor; assumption | constructor; exact E].
Qed.

Lemma sorted_desc_sorted (l : list path_stat) :
  Sorted (fun a b => key_lt a b = false) (sorted_desc l).
Proof.
  induction l as [ | x l IH]; simpl; [constructor | apply insert_desc_sorted, IH].
Qed.

Lemma insert_desc_Forall (P : path_stat -> Prop) (x : path_stat) (l : list path_stat) :
  P x -> Forall P l -> Forall P (insert_desc x l).
Proof.
  intros Hx. induction 1 as [ | y l Hy Hl IH]; simpl.
  - constructor; [exact Hx | constructor].
  - destruct (key_lt x y); constructor; auto.
Qed.

Lemma sorted_desc_Forall (P : path_stat -> Prop) (l : list path_stat) :
  Forall P l -> Forall P (sorted_desc l).
Proof.
  induction 1 as [ | x l Hx Hl IH]; simpl; [constructor | ].
  apply insert_desc_Forall; assumption.
Qed.

Lemma Sorted_on_Forall {A : Type} (P : A -> Prop) (R R' : A -> A -> Prop) (l : list A) :
  (forall a b, P a -> P b -> R a b -> R' a b) ->
  Forall P l -> Sorted R l -> Sorted R' l.
Proof.
  intros HR HP HS. induction HS as [ | x l Hl IH Hx]; [constructor | ].
  inversion HP as [ | ? ? Px Pl]; subst.
  constructor; [apply IH; exact Pl | ].
  destruct Hx as [ | y l Hxy]; constructor.
  inversion Pl; subst. apply HR; assumption.
Qed.

(** C6.  The ranker returns the aggregated statistics in non-increasing
    lexicographic order of (average rate, count); the three statistics of
    the specification come out as C, B, A; an empty match set gives the
    empty sequence without an error. *)
Theorem get_optimal_swap_paths_ranked :
  (forall (retrieve : similarity_search) (from_token to_token : string)
          (paths : list path_stat),
     get_optimal_swap_paths retrieve from_token to_token = Return paths ->
     Sorted Spec.rank_ge paths) /\
  (exists a b c,
     get_optimal_swap_paths (fun _ => Return Sample.matches) "ETH" "USDC" =
       Return [c; b; a] /\
     (ps_path a, avgRate a, count a) = ("A", PyFloat.const 2, 5) /\
     (ps_path b, avgRate b, count b) = ("B", PyFloat.const 2, 9) /\
     (ps_path c, avgRate c, count c) = ("C", PyFloat.const 3, 1)) /\
  (forall (retrieve : similarity_search) (from_token to_token : string),
     retrieve ("Swap " ++ from_token ++ " to " ++ to_token) = Return [] ->
     get_optimal_swap_paths retrieve from_token to_token = Return []).
Proof.
  split; [ | split].
  - intros retrieve from_token to_token paths. unfold get_optimal_swap_paths.
    destruct (retrieve _) as [direct_swaps | e]; [ | discriminate].
    cbn [result_bind].
    destruct (set_averages _) as [values | e] eqn:E; [ | discriminate].
    cbn [result_bind]. intro H. injection H as <-.
    apply set_averages_numbers in E.
    + apply (Sorted_on_Forall (fun st => PyFloat.is_nan (avgRate st) = false)
               (fun a b => key_lt a b = false)).
      * apply not_key_lt_rank_ge.
      * apply sorted_desc_Forall. exact E.
      * apply sorted_desc_sorted.
    + apply Forall_map. apply (record_swaps_ok direct_swaps []). constructor.
  - vm_compute. do 3 eexists. repeat split.
  - intros retrieve from_token to_token H. unfold get_optimal_swap_paths.
    rewrite H. reflexivity.
Qed.

Lemma get_optimal_swap_paths_ranked_witness :
  exists paths,
    get_optimal_swap_paths (fun _ => Return Sample.matches) "ETH" "USDC" = Return paths /\
    Sorted Spec.rank_ge paths /\
    get_optimal_swap_paths (fun _ => Return []) "ETH" "USDC" = Return [].
Proof.
  destruct (proj1 (proj2 get_optimal_swap_paths_ranked)) as (a & b & c & E & _).
  exists [c; b; a]. split; [exact E | split].
  - exact (proj1 get_optimal_swap_paths_ranked _ "ETH" "USDC" _ E).
  - apply (proj2 (proj2 get_optimal_swap_paths_ranked)). reflexivity.
Defined.

End Ranker.

(** ** The advice synthesizer *)

Section Synthesizer.

Import QueryEngine.

Lemma swap_details_of_returns (llm_advice : string) (d : option Json.value) :
  swap_details_of llm_advice = Return d ->
  d = None \/
  exists json_match v,
    Re.search json_block llm_advice = Some json_match /\
    Json.loads (Re.group0 json_match) = Return v /\ d = Some v.
Proof.
  unfold swap_details_of.
  destruct (Re.search json_block llm_advice) as [json_match | ].
  - destruct (Json.loads (Re.group0 json_match)) as [v | e] eqn:E; [ | discriminate].
    intro H. injection H as <-. right. exists json_match, v. auto.
  - intro H. injection H as <-. left. reflexivity.
Qed.

(** C2.  [get_best_swap_path] returns a decision only when the advice
    holds a block that [json.loads] accepts; but on an advice whose block is
    malformed (here the block of the prompt's own template, with its
    comment) it raises [JSONDecodeError] instead of returning [None]. *)
Theorem get_best_swap_path_block :
  (forall (c : collaborators) (query advice : string) (d : option Json.value),
     get_best_swap_path c query = Return (advice, d) ->
     d = None \/
     exists json_match v,
       Re.search json_block advice = Some json_match /\
       Json.loads (Re.group0 json_match) = Return v /\ d = Some v) /\
  (exists json_match e,
     Re.search json_block Sample.advice_with_comment = Some json_match /\
     Json.loads (Re.group0 json_match) = Raise (JSONDecodeError e) /\
     get_best_swap_path (Sample.advisor Sample.advice_with_comment) "swap 1 ETH to USDC" =
       Raise (JSONDecodeError e)).
Proof.
  split.
  - intros c query advice d. unfold get_best_swap_path.
    destruct (parse_swap_query query) as [[[from_token | ] [to_token | ]] amount];
      try (intro H; injection H as <- <-; left; reflexivity).
    destruct (negb (PyStr.truthy from_token) || negb (PyStr.truthy to_token));
      [intro H; injection H as <- <-; left; reflexivity | ].
    destruct (VectorStore.get_optimal_swap_paths _ _ _) as [historical_paths | e];
      [ | discriminate].
    cbn [result_bind].
    match goal with
    | |- result_bind ?x _ = _ -> _ => destruct x as [one_inch_context | e]; [ | discriminate]
    end.
    cbn [result_bind].
    destruct (swap_details_of _) as [sd | e] eqn:E; [ | discriminate].
    cbn [result_bind]. intro H. injection H as <- <-.
    apply swap_details_of_returns. exact E.
  - eexists. exists "Expecting property name enclosed in double quotes".
    split; [vm_compute; reflexivity | split; vm_compute; reflexivity].
Qed.

Lemma get_best_swap_path_block_witness :
  exists advice v,
    get_best_swap_path (Sample.advisor Sample.advice_with_block) "swap 1 ETH to USDC" =
      Return (advice, Some v) /\
    exists json_match,
      Re.search json_block advice = Some json_match /\
      Json.loads (Re.group0 json_match) = Return v.
Proof.
  assert (E : exists v,
             get_best_swap_path (Sample.advisor Sample.advice_with_block)
               "swap 1 ETH to USDC" = Return (Sample.advice_with_block, Some v))
    by (vm_compute; eexists; reflexivity).
  destruct E as [v E].
  exists Sample.advice_with_block, v. split; [exact E | ].
  destruct (proj1 get_best_swap_path_block _ _ _ _ E) as [H | (json_match & v' & H1 & H2 & H3)].
  - discriminate H.
  - injection H3 as <-. exists json_match. split; assumption.
Defined.

End Synthesizer.

(** ** Regular expressions: what a match tells about the text *)

Section Matcher.

Import Re Invariants.

Lemma star_runs_sound (p : ascii -> bool) (s rest : list ascii) :
  In rest (star_runs p s) ->
  exists w, s = (w ++ rest)%list /\ Forall (fun c => p c = true) w.
Proof.
  induction s as [ | c s IH]; simpl.
  - intros [<- | []]. exists []. split; [reflexivity | constructor].
  - destruct (p c) eqn:E.
    + intro H. apply in_app_or in H. destruct H as [H | [<- | []]].
      * destruct (IH H) as (w & -> & Hw). exists (c :: w).
        split; [reflexivity | constructor; assumption].
      * exists []. split; [reflexivity | constructor].
    + intros [<- | []]. exists []. split; [reflexivity | constructor].
Qed.

Lemma rep_runs_sound (p : ascii -> bool) (n : nat) :
  forall s rest, In rest (rep_runs p n s) ->
  exists w, s = (w ++ rest)%list /\ Forall (fun c => p c = true) w /\
            (n <= List.length w)%nat.
Proof.
  induction n as [ | n IH]; intros s rest H; simpl in H.
  - destruct (star_runs_sound p s rest H) as (w & E & Hw).
    exists w. repeat split; [exact E | exact Hw | lia].
  - destruct s as [ | c s]; [destruct H | ].
    destruct (p c) eqn:E; [ | destruct H].
    destruct (IH s rest H) as (w & -> & Hw & Hn).
    exists (c :: w). repeat split; [constructor; assumption | simpl; lia].
Qed.

(** Every result of the matcher splits the input into a text of the
    pattern and the remainder. *)
Lemma matches_sound (r : regex) :
  forall s g rest g', In (rest, g') (matches r s g) ->
  exists w, s = (w ++ rest)%list /\ lang r w.
Proof.
  induction r as [ | p | r1 IH1 r2 IH2 | r1 IH1 r2 IH2 | r1 IH1 | p n | i r1 IH1];
    intros s g rest g' H; simpl in H.
  - destruct H as [H | []]. injection H as <- <-. exists []. split; reflexivity.
  - destruct s as [ | c s]; [destruct H | ].
    destruct (p c) eqn:E; [ | destruct H].
    destruct H as [H | []]. injection H as <- <-.
    exists [c]. split; [reflexivity | exists c; auto].
  - apply in_flat_map in H. destruct H as ([s1 g1] & H1 & H2). simpl in H2.
    destruct (IH1 _ _ _ _ H1) as (w1 & -> & L1).
    destruct (IH2 _ _ _ _ H2) as (w2 & -> & L2).
    exists (w1 ++ w2)%list. split; [apply app_assoc | exists w1, w2; auto].
  - apply in_app_or in H. destruct H as [H | H].
    + destruct (IH1 _ _ _ _ H) as (w & -> & L). exists w. split; [reflexivity | left; exact L].
    + destruct (IH2 _ _ _ _ H) as (w & -> & L). exists w. split; [reflexivity | right; exact L].
  - apply in_app_or in H. destruct H as [H | [H | []]].
    + destruct (IH1 _ _ _ _ H) as (w & -> & L). exists w. split; [reflexivity | right; exact L].
    + injection H as <- <-. exists []. split; [reflexivity | left; reflexivity].
  - apply in_map_iff in H. destruct H as (rest' & H & Hin). injection H as <- <-.
    destruct (rep_runs_sound p n s rest' Hin) as (w & -> & Hw & Hn).
    exists w. split; [reflexivity | split; assumption].
  - apply in_map_iff in H. destruct H as ([s1 g1] & H & Hin). simpl in H.
    injection H as <- <-. exact (IH1 _ _ _ _ Hin).
Qed.

(** A successful search splits the text around a text of the pattern. *)
Lemma search_from_sound (r : regex) :
  forall s pos m, search_from r pos s = Some m ->
  exists pre w, s = (pre ++ w ++ m_rest m)%list /\ lang r w.
Proof.
  induction s as [ | c s IH]; intros pos m H; simpl in H.
  - destruct (matches r [] []) as [ | [rest g] l] eqn:E; [discriminate | ].
    injection H as <-. simpl.
    destruct (matches_sound r [] [] rest g) as (w & Ew & L); [rewrite E; left; reflexivity | ].
    exists [], w. split; [exact Ew | exact L].
  - destruct (matches r (c :: s) []) as [ | [rest g] l] eqn:E.
    + destruct (IH _ _ H) as (pre & w & -> & L).
      exists (c :: pre), w. split; [reflexivity | exact L].
    + injection H as <-. simpl.
      destruct (matches_sound r (c :: s) [] rest g) as (w & Ew & L);
        [rewrite E; left; reflexivity | ].
      exists [], w. split; [exact Ew | exact L].
Qed.

End Matcher.

(** ** Characters: case and classes *)

Section Characters.

Import PyStr.

Lemma code_lt_256 (c : ascii) : (code c < 256)%N.
Proof. apply N_ascii_bounded. Qed.

Lemma upper_char_of_lower (c : ascii) : is_lower c = true -> is_upper (upper_char c) = true.
Proof.
  unfold upper_char. intro H. rewrite H.
  unfold is_lower, is_upper, in_range, code in *.
  apply andb_true_iff in H. destruct H as [H1 H2].
  apply N.leb_le in H1, H2. change (N_of_ascii "a") with 97%N in H1.
  change (N_of_ascii "z") with 122%N in H2.
  rewrite N_ascii_embedding by lia.
  change (N_of_ascii "A") with 65%N. change (N_of_ascii "Z") with 90%N.
  apply andb_true_iff. split; apply N.leb_le; lia.
Qed.

Lemma upper_char_of_upper (c : ascii) : is_upper c = true -> upper_char c = c.
Proof.
  unfold upper_char. intro H.
  destruct (is_lower c) eqn:E; [ | reflexivity].
  unfold is_lower, is_upper, in_range, code in *.
  apply andb_true_iff in H, E. destruct H as [H1 H2], E as [E1 E2].
  apply N.leb_le in H1, H2, E1, E2.
  change (N_of_ascii "a") with 97%N in E1. change (N_of_ascii "Z") with 90%N in H2. lia.
Qed.

(** A letter becomes a capital letter. *)
Lemma upper_char_alpha (c : ascii) : is_alpha c = true -> is_upper (upper_char c) = true.
Proof.
  unfold is_alpha. intro H. apply orb_true_iff in H. destruct H as [H | H].
  - rewrite upper_char_of_upper; exact H.
  - apply upper_char_of_lower; exact H.
Qed.



Lemma chars_str (l : list ascii) : chars (str l) = l.
Proof. apply list_ascii_of_string_of_list_ascii. Qed.

Lemma str_chars (s : string) : str (chars s) = s.
Proof. apply string_of_list_ascii_of_string. Qed.

End Characters.

(** ** The ticker scan *)

Section TickerScan.

Import Re.

Variable p : ascii -> bool.








End TickerScan.

(** ** The query parser *)

Section Parser.

Import PyStr Re Invariants QueryEngine.











End Parser.

(** ** The executor: further properties *)

Section ExecutorProperties.

Import SwapExecutor Calls.

Lemma calls_all_weaken {A : Type} (P Q : event -> Prop) (m : M A) :
  (forall ev, P ev -> Q ev) -> calls_all P m -> calls_all Q m.
Proof. intros H. apply Forall_impl. exact H. Qed.

(** X1.  Approving the native asset needs nothing: with a wallet
    connected, [approve_token] returns [True] for ["ETH"] without a single
    call to the chain, whatever the DEX name and the amount. *)
Theorem approve_token_native :
  forall (self : SwapExecutor) (w3 : Web3) (acct : wallet) (dex_name : string)
         (amount : option Z),
    account self = Some acct ->
    approve_token self w3 "ETH" dex_name amount = (Return true, []).
Proof. intros self w3 acct dex_name amount H. unfold approve_token. rewrite H. reflexivity. Qed.

Lemma approve_token_native_witness :
  approve_token Sample.live Sample.w3 "ETH" "no such DEX" None = (Return true, []).
Proof. apply (approve_token_native Sample.live Sample.w3 Sample.alice). reflexivity. Defined.

(** X2.  In test mode [approve_token] never signs, sends or awaits a
    transaction, and [True] is the only value it returns. *)
Theorem approve_token_simulated :
  forall (self : SwapExecutor) (w3 : Web3) (token_symbol dex_name : string)
         (amount : option Z),
    test_mode self = true ->
    let run := approve_token self w3 token_symbol dex_name amount in
    calls_all (fun ev => is_submission ev = false) run /\
    (forall b, fst run = Return b -> b = true).
Proof.
  intros self w3 token_symbol dex_name amount Hmode run. subst run.
  unfold approve_token. rewrite Hmode. split.
  - calls_auto; reflexivity.
  - intros b H.
    destruct (account self) as [acct | ]; [ | discriminate H].
    repeat returns_step H; injection H as <-; reflexivity.
Qed.

Lemma approve_token_simulated_witness :
  calls_all (fun ev => is_submission ev = false)
    (approve_token Sample.simulated Sample.w3 "DAI" "Uniswap V2" None) /\
  fst (approve_token Sample.simulated Sample.w3 "DAI" "Uniswap V2" None) = Return true.
Proof.
  split.
  - apply (approve_token_simulated Sample.simulated Sample.w3 "DAI" "Uniswap V2" None).
    reflexivity.
  - vm_compute. reflexivity.
Defined.

(** X3.  The build step is read-only in every mode: it never signs, sends
    or awaits a transaction, and every transaction it estimates or builds
    is a router call. *)
Theorem generate_swap_transaction_read_only :
  forall (self : SwapExecutor) (w3 : Web3) (from_token to_token : string)
         (amount : PyFloat.float) (dex_name : string) (slippage : PyFloat.float)
         (dest : option string),
    calls_all (fun ev => is_submission ev = false /\ approval_value ev = None)
      (generate_swap_transaction self w3 from_token to_token amount dex_name slippage dest).
Proof.
  intros. eapply calls_all_weaken; [ | apply generate_swap_transaction_calls].
  intros ev H. destruct ev as [ | | | | | c p | c p | | | ]; simpl in *;
    try discriminate H; split; try reflexivity; destruct c; try reflexivity;
    discriminate H.
Qed.

Lemma get_token_balance_reads (self : SwapExecutor) (w3 : Web3) (token_symbol : string) :
  calls_all (fun ev => is_construction ev = false) (get_token_balance self w3 token_symbol).
Proof. unfold get_token_balance. calls_auto; reflexivity. Qed.

(** X4.  The gas limit of every transaction the build step constructs is
    the estimate of the chain with its 20 percent margin, or the fallback
    300000: a failing estimation does not fail the build. *)
Theorem generate_swap_transaction_gas :
  forall (self : SwapExecutor) (w3 : Web3) (from_token to_token : string)
         (amount : PyFloat.float) (dex_name : string) (slippage : PyFloat.float)
         (dest : option string),
    calls_all (gas_is_fallback_or_estimate w3)
      (generate_swap_transaction self w3 from_token to_token amount dex_name slippage dest) /\
    (forall c params, exists gas, fst (gas_limit w3 c params) = Return gas) /\
    (forall c params e, estimate_gas w3 c params = Raise e ->
       fst (gas_limit w3 c params) = Return 300000).
Proof.
  intros. split; [ | split].
  - unfold generate_swap_transaction.
    destruct (account self) as [acct | ]; [ | apply calls_all_raise].
    apply calls_all_bind; [calls_auto | intros destination _].
    repeat (match goal with
            | |- calls_all _ (if ?b then _ else _) => destruct b
            end; [apply calls_all_raise | ]).
    apply calls_all_bind;
      [eapply calls_all_weaken; [ | apply get_token_balance_reads];
       intros ev H; destruct ev; try exact I; discriminate H | intros bal _].
    apply calls_all_bind; [apply calls_all_pure | intros short _].
    destruct short; [apply calls_all_raise | ].
    match goal with
    | |- calls_all _ (if ?b then _ else _) => destruct b; [apply calls_all_raise | ]
    end.
    do 4 (apply calls_all_bind; [apply calls_all_checksum | intros ? _]).
    apply calls_all_bind; [apply calls_all_pure | intros deadline _].
    apply calls_all_bind; [calls_auto; exact I | intros amount_in_wei _].
    apply calls_all_bind; [apply calls_all_pure | intros amount_out_min _].
    apply calls_all_bind; [apply calls_all_call; exact I | intros nonce _].
    match goal with
    | |- calls_all _ (bind (gas_limit w3 ?c ?p) _) =>
        apply calls_all_bind;
          [unfold gas_limit; calls_auto; exact I | intros gas Hgas]
    end.
    apply calls_all_bind; [ | intros tx _; apply calls_all_ret].
    apply calls_all_call. simpl. exists gas. split; [reflexivity | ].
    unfold gas_limit, try_except, bind, call, pure, ret in Hgas.
    match type of Hgas with
    | context [estimate_gas w3 ?c ?p] =>
        destruct (estimate_gas w3 c p) as [est | e] eqn:E
    end; simpl in Hgas.
    + destruct (with_margin est) as [g | e] eqn:Eg; simpl in Hgas.
      * injection Hgas as <-. right. eauto.
      * injection Hgas as <-. left. reflexivity.
    + injection Hgas as <-. left. reflexivity.
  - intros c params. unfold gas_limit, try_except, bind, call, pure, ret.
    destruct (estimate_gas w3 c params) as [est | e]; simpl;
      [destruct (with_margin est); simpl | ]; eauto.
  - intros c params e H. unfold gas_limit, try_except, bind, call, pure, ret.
    rewrite H. reflexivity.
Qed.

Lemma generate_swap_transaction_gas_witness :
  fst (gas_limit
         {| to_checksum_address := to_checksum_address Sample.w3;
            to_wei_ether := to_wei_ether Sample.w3;
            time := time Sample.w3;
            get_balance := get_balance Sample.w3;
            gas_price := gas_price Sample.w3;
            get_transaction_count := get_transaction_count Sample.w3;
            balanceOf := balanceOf Sample.w3;
            decimals := decimals Sample.w3;
            estimate_gas := fun _ _ => Raise (CollaboratorError "execution reverted");
            build_transaction := build_transaction Sample.w3;
            sign_transaction := sign_transaction Sample.w3;
            send_raw_transaction := send_raw_transaction Sample.w3;
            wait_for_transaction_receipt := wait_for_transaction_receipt Sample.w3 |}
         (approve "" "" 0)
         {| tx_from := ""; tx_value := None; tx_gas := None; tx_gasPrice := None;
            tx_nonce := None; tx_chainId := None |}) = Return 300000.
Proof.
  eapply (proj2 (proj2 (generate_swap_transaction_gas Sample.live _ "ETH" "USDC"
                          PyFloat.one "Uniswap V2" PyFloat.half None))).
  reflexivity.
Defined.

End ExecutorProperties.

Section BuildProperties.

Import SwapExecutor Calls.




End BuildProperties.

Section RouteAndSubmission.

Import SwapExecutor Calls.

Lemma checksum_returns (w3 : Web3) (a c : string) :
  fst (checksum w3 a) = Return c -> to_checksum_address w3 a = Some c.
Proof.
  unfold checksum. destruct (to_checksum_address w3 a); simpl; intro H;
    [injection H as <-; reflexivity | discriminate H].
Qed.

(** X6.  A swap that the build step returns was constructed on a route of
    exactly two addresses, the checksummed addresses of the two tokens with
    WETH in place of ETH, for the destination of the details; from ETH to a
    token it is [swapExactETHForTokens] with the input attached as value,
    from a token to ETH [swapExactTokensForETH], and otherwise
    [swapExactTokensForTokens], both without value. *)
Theorem generate_swap_transaction_route :
  forall (self : SwapExecutor) (w3 : Web3) (from_token to_token : string)
         (amount : PyFloat.float) (dex_name : string) (slippage : PyFloat.float)
         (dest : option string) (sd : swap_data),
    let run := generate_swap_transaction self w3 from_token to_token amount dex_name
                 slippage dest in
    fst run = Return sd ->
    List.length (d_path (details sd)) = 2%nat /\
    calls_some (builds_route w3 from_token to_token sd) run.
Proof.
  intros self w3 from_token to_token amount dex_name slippage dest sd run H.
  assert (G : calls_some (fun ev => List.length (d_path (details sd)) = 2%nat /\
                                    builds_route w3 from_token to_token sd ev) run).
  { subst run. unfold generate_swap_transaction in *.
    destruct (account self) as [acct | ]; [ | discriminate H].
    do 16 returns_step H.
    apply bind_returns in H. destruct H as (tx & Htx & H).
    injection H as <-. apply calls_some_bind_left, calls_some_call.
    cbn [details d_path d_destination List.length builds_route map].
    split; [reflexivity | ].
    repeat match goal with
           | Hc : fst (checksum _ _) = Return _ |- _ => apply checksum_returns in Hc
           end.
    destruct (String.eqb_spec from_token "ETH") as [Ef | Ef],
             (String.eqb_spec to_token "ETH") as [Et | Et];
      cbn [andb negb path_of recipient_of tx_value with_gas];
      repeat split; try congruence; try tauto. }
  unfold calls_some in *. apply Exists_exists in G.
  destruct G as (ev & Hin & Hlen & Hroute).
  split; [exact Hlen | apply Exists_exists; exists ev; auto].
Qed.

Lemma generate_swap_transaction_route_witness :
  exists sd,
    fst (generate_swap_transaction Sample.live Sample.w3 "ETH" "USDC" (PyFloat.const 2)
           "Uniswap V2" PyFloat.half None) = Return sd /\
    List.length (d_path (details sd)) = 2%nat /\
    calls_some (builds_route Sample.w3 "ETH" "USDC" sd)
      (generate_swap_transaction Sample.live Sample.w3 "ETH" "USDC" (PyFloat.const 2)
         "Uniswap V2" PyFloat.half None).
Proof.
  assert (E : exists sd,
             fst (generate_swap_transaction Sample.live Sample.w3 "ETH" "USDC"
                    (PyFloat.const 2) "Uniswap V2" PyFloat.half None) = Return sd)
    by (vm_compute; eexists; reflexivity).
  destruct E as [sd E]. exists sd. split; [exact E | ].
  exact (generate_swap_transaction_route Sample.live Sample.w3 "ETH" "USDC"
           (PyFloat.const 2) "Uniswap V2" PyFloat.half None sd E).
Defined.

Lemma no_broadcast_filter (t : list event) :
  Forall (fun ev => build_phase ev = true) t -> filter is_broadcast t = [].
Proof.
  induction 1 as [ | ev t Hev Ht IH]; [reflexivity | ].
  simpl. rewrite IH. destruct ev; try reflexivity; discriminate Hev.
Qed.

(** X7.  A live [execute_swap] sends at most one transaction.  It returns
    a hash only if that is the hash under which the transaction was sent
    and its receipt, awaited for 300 seconds, had status 1; it returns
    [None] only if the receipt had another status. *)
Theorem execute_swap_live :
  forall (self : SwapExecutor) (w3 : Web3) (from_token to_token : string)
         (amount : PyFloat.float) (dex_name : string) (slippage : PyFloat.float)
         (dest : option string) (test_mode_arg : option bool),
    match test_mode_arg with Some b => b | None => test_mode self end = false ->
    let run := execute_swap self w3 from_token to_token amount dex_name slippage dest
                 test_mode_arg in
    (List.length (filter is_broadcast (snd run)) <= 1)%nat /\
    (forall h, fst run = Return (Some h) ->
       calls_some (sent_as w3 h) run /\ calls_some (swap_receipt w3 h 1) run) /\
    (fst run = Return None ->
     exists h status, status <> 1 /\ calls_some (swap_receipt w3 h status) run).
Proof.
  intros self w3 from_token to_token amount dex_name slippage dest test_mode_arg Hmode run.
  subst run. unfold execute_swap. rewrite Hmode.
  destruct (account self) as [acct | ];
    [ | split; [simpl; lia | split; [intros h H | intros H]; discriminate H]].
  pose proof (generate_swap_transaction_calls self w3 from_token to_token amount dex_name
                slippage dest) as Hgen.
  unfold calls_all in Hgen. apply no_broadcast_filter in Hgen.
  destruct (generate_swap_transaction self w3 from_token to_token amount dex_name
              slippage dest) as [[sd | e] t];
    [ | split; [simpl in *; rewrite Hgen; simpl; lia
              | split; [intros h H | intros H]; discriminate H]].
  simpl in Hgen. unfold bind, call, ret, calls_some.
  destruct (sign_transaction w3 (tx_data sd) (w_key acct)) as [signed | e];
    [ | split; [simpl; rewrite filter_app, Hgen; simpl; lia
              | split; [intros h H | intros H]; discriminate H]].
  destruct (send_raw_transaction w3 signed) as [tx_hash | e] eqn:Esend;
    [ | split; [simpl; rewrite filter_app, Hgen; simpl; lia
              | split; [intros h H | intros H]; discriminate H]].
  destruct (wait_for_transaction_receipt w3 tx_hash 300) as [status | e] eqn:Ewait;
    [ | split; [simpl; rewrite filter_app, Hgen; simpl; lia
              | split; [intros h H | intros H]; discriminate H]].
  destruct (status =? 1) eqn:Es; simpl.
  - split; [rewrite filter_app, Hgen; simpl; lia | ].
    apply Z.eqb_eq in Es. subst status.
    split; [ | discriminate].
    intros h H. injection H as <-. split; apply Exists_app; right.
    + right. left. exact Esend.
    + right. right. left. split; [reflexivity | exact Ewait].
  - split; [rewrite filter_app, Hgen; simpl; lia | ].
    split; [discriminate | ].
    intros _. exists tx_hash, status. apply Z.eqb_neq in Es. split; [exact Es | ].
    apply Exists_app. right. right. right. left. split; [reflexivity | exact Ewait].
Qed.

Lemma execute_swap_live_witness :
  calls_some (sent_as Sample.w3 "0x5c50")
    (execute_swap Sample.live Sample.w3 "DAI" "ETH" (PyFloat.const 2) "Uniswap V2"
       PyFloat.half None None) /\
  calls_some (swap_receipt Sample.w3 "0x5c50" 1)
    (execute_swap Sample.live Sample.w3 "DAI" "ETH" (PyFloat.const 2) "Uniswap V2"
       PyFloat.half None None).
Proof.
  apply (proj1 (proj2 (execute_swap_live Sample.live Sample.w3 "DAI" "ETH" (PyFloat.const 2)
                         "Uniswap V2" PyFloat.half None None eq_refl))).
  vm_compute. reflexivity.
Defined.

End RouteAndSubmission.

(** ** Regular expressions: what the groups capture *)

Section Groups.

Import Re Invariants.

Lemma firstn_consumed {A : Type} (w rest : list A) :
  firstn (List.length (w ++ rest) - List.length rest) (w ++ rest) = w.
Proof.
  rewrite length_app.
  replace (List.length w + List.length rest - List.length rest)%nat
    with (List.length w + 0)%nat by lia.
  rewrite firstn_app_2, firstn_O, app_nil_r. reflexivity.
Qed.

(** A group holds what was captured before, or a text of its pattern. *)
Lemma matches_groups (r : regex) :
  forall s g rest g', In (rest, g') (matches r s g) ->
  forall i t, lookup_group i g' = Some t ->
  lookup_group i g = Some t \/ group_lang r i t.
Proof.
  induction r as [ | p | r1 IH1 r2 IH2 | r1 IH1 r2 IH2 | r1 IH1 | p n | j r1 IH1];
    intros s g rest g' H i t Hl; simpl in H.
  - destruct H as [H | []]. injection H as <- <-. left. exact Hl.
  - destruct s as [ | c s]; [destruct H | ].
    destruct (p c); [ | destruct H].
    destruct H as [H | []]. injection H as <- <-. left. exact Hl.
  - apply in_flat_map in H. destruct H as ([s1 g1] & H1 & H2). simpl in H2.
    destruct (IH2 _ _ _ _ H2 i t Hl) as [Hg | Hg]; [ | right; right; exact Hg].
    destruct (IH1 _ _ _ _ H1 i t Hg) as [Hg' | Hg']; [left | right; left]; assumption.
  - apply in_app_or in H. destruct H as [H | H].
    + destruct (IH1 _ _ _ _ H i t Hl); [left | right; left]; assumption.
    + destruct (IH2 _ _ _ _ H i t Hl); [left | right; right]; assumption.
  - apply in_app_or in H. destruct H as [H | [H | []]].
    + exact (IH1 _ _ _ _ H i t Hl).
    + injection H as <- <-. left. exact Hl.
  - apply in_map_iff in H. destruct H as (rest' & H & _). injection H as <- <-.
    left. exact Hl.
  - apply in_map_iff in H. destruct H as ([s1 g1] & H & Hin). simpl in H.
    injection H as <- <-. simpl in Hl.
    destruct (Nat.eqb i j) eqn:E.
    + injection Hl as <-. apply Nat.eqb_eq in E. right. left. split; [exact E | ].
      destruct (matches_sound r1 _ _ _ _ Hin) as (w & -> & L).
      rewrite firstn_consumed. exact L.
    + destruct (IH1 _ _ _ _ Hin i t Hl); [left | right; right]; assumption.
Qed.

(** A group that was captured stays captured, and a group on every path
    of the pattern is captured by every match. *)
Lemma matches_binds (r : regex) :
  forall s g rest g', In (rest, g') (matches r s g) ->
  forall i, (lookup_group i g <> None \/ binds r i = true) -> lookup_group i g' <> None.
Proof.
  induction r as [ | p | r1 IH1 r2 IH2 | r1 IH1 r2 IH2 | r1 IH1 | p n | j r1 IH1];
    intros s g rest g' H i Hb; simpl in H, Hb.
  - destruct H as [H | []]. injection H as <- <-.
    destruct Hb as [Hb | Hb]; [exact Hb | discriminate Hb].
  - destruct s as [ | c s]; [destruct H | ].
    destruct (p c); [ | destruct H].
    destruct H as [H | []]. injection H as <- <-.
    destruct Hb as [Hb | Hb]; [exact Hb | discriminate Hb].
  - apply in_flat_map in H. destruct H as ([s1 g1] & H1 & H2). simpl in H2.
    apply (IH2 _ _ _ _ H2).
    destruct Hb as [Hb | Hb].
    + left. apply (IH1 _ _ _ _ H1). left. exact Hb.
    + apply orb_true_iff in Hb. destruct Hb as [Hb | Hb]; [ | right; exact Hb].
      left. apply (IH1 _ _ _ _ H1). right. exact Hb.
  - apply in_app_or in H.
    assert (Hb' : (lookup_group i g <> None \/ binds r1 i = true) /\
                  (lookup_group i g <> None \/ binds r2 i = true)).
    { destruct Hb as [Hb | Hb]; [split; left; exact Hb | ].
      apply andb_true_iff in Hb. destruct Hb. split; right; assumption. }
    destruct Hb' as [B1 B2].
    destruct H as [H | H]; [exact (IH1 _ _ _ _ H i B1) | exact (IH2 _ _ _ _ H i B2)].
  - destruct Hb as [Hb | Hb]; [ | discriminate Hb].
    apply in_app_or in H. destruct H as [H | [H | []]].
    + apply (IH1 _ _ _ _ H). left. exact Hb.
    + injection H as <- <-. exact Hb.
  - apply in_map_iff in H. destruct H as (rest' & H & _). injection H as <- <-.
    destruct Hb as [Hb | Hb]; [exact Hb | discriminate Hb].
  - apply in_map_iff in H. destruct H as ([s1 g1] & H & Hin). simpl in H.
    injection H as <- <-. simpl.
    destruct (Nat.eqb i j) eqn:E; [discriminate | ].
    apply (IH1 _ _ _ _ Hin). simpl in Hb. exact Hb.
Qed.

(** The match of a search is a result of the matcher at some position. *)
Lemma search_from_result (r : regex) :
  forall s pos m, search_from r pos s = Some m ->
  exists s', In (m_rest m, m_groups m) (matches r s' []).
Proof.
  induction s as [ | c s IH]; intros pos m H; simpl in H.
  - destruct (matches r [] []) as [ | [rest g] l] eqn:E; [discriminate | ].
    injection H as <-. exists []. rewrite E. left. reflexivity.
  - destruct (matches r (c :: s) []) as [ | [rest g] l] eqn:E.
    + exact (IH _ _ H).
    + injection H as <-. exists (c :: s). rewrite E. left. reflexivity.
Qed.

(** Every match of a scan is a text of the pattern. *)
Lemma findall_from_lang (r : regex) :
  forall s k, Forall (lang r) (findall_from r k s).
Proof.
  induction s as [ | c s IH]; intros k; cbn [findall_from]; [constructor | ].
  destruct k as [ | k]; [ | apply IH].
  destruct (matches r (c :: s) []) as [ | [rest g] l] eqn:E; [apply IH | ].
  cbv zeta. constructor; [ | apply IH].
  destruct (matches_sound r (c :: s) [] rest g) as (w & Ew & L);
    [rewrite E; left; reflexivity | ].
  rewrite Ew, firstn_consumed. exact L.
Qed.

End Groups.

(** ** query_engine.py: the shape of the parsed tokens *)

Section ParsedTokens.

Import PyStr Re QueryEngine Invariants.

(** A group on every path of the pattern holds a text of its own pattern
    in the match of a search. *)
Lemma search_group (r : regex) (s : string) (m : match_object) (i : nat) :
  search r s = Some m -> binds r i = true ->
  exists t, lookup_group i (m_groups m) = Some t /\ group_lang r i t.
Proof.
  unfold search. intros H B.
  destruct (search_from_result _ _ _ _ H) as (s' & Hin).
  pose proof (matches_binds r _ _ _ _ Hin i (or_intror B)) as Hn.
  destruct (lookup_group i (m_groups m)) as [t | ] eqn:E; [ | contradiction].
  exists t. split; [reflexivity | ].
  destruct (matches_groups r _ _ _ _ Hin i t E) as [Hl | Hl];
    [discriminate Hl | exact Hl].
Qed.

Lemma capital_word_upper (t : list ascii) :
  Forall (fun c => is_alpha c = true) t -> (1 <= List.length t)%nat ->
  capital_word (upper (str t)).
Proof.
  intros F L. unfold capital_word, upper. rewrite !chars_str. split.
  - destruct t; [simpl in L; lia | discriminate].
  - apply Forall_map. revert F. apply Forall_impl. intros c. apply upper_char_alpha.
Qed.

Lemma token_pattern_group (i : nat) (t : list ascii) :
  i = 2%nat \/ i = 3%nat -> group_lang token_pattern i t ->
  Forall (fun c => is_alpha c = true) t /\ (1 <= List.length t)%nat.
Proof.
  intros Hi H. cbn in H.
  repeat match type of H with
  | _ \/ _ => destruct H as [H | H]
  | False => destruct H
  | _ /\ _ => destruct H as [? H]
  end; try (destruct Hi; subst; discriminate); try exact H;
  try (split; assumption).
Qed.

Lemma directional_token (query : string) (m : match_object) (i : nat) :
  i = 2%nat \/ i = 3%nat ->
  search token_pattern query = Some m ->
  capital_word (upper (group_text m i)).
Proof.
  intros Hi H.
  assert (B : binds token_pattern i = true) by (destruct Hi; subst; reflexivity).
  destruct (search_group _ _ _ _ H B) as (t & E & L).
  unfold group_text, group. rewrite E. cbn [option_map].
  destruct (token_pattern_group i t Hi L). apply capital_word_upper; assumption.
Qed.

Lemma ticker_capital_word (s t : string) :
  In t (findall ticker_pattern s) -> capital_word t.
Proof.
  unfold findall. intro H. apply in_map_iff in H. destruct H as (w & <- & Hin).
  pose proof (findall_from_lang ticker_pattern (chars s) 0) as F.
  rewrite Forall_forall in F. destruct (F w Hin) as [Fu Lw].
  unfold capital_word. rewrite chars_str. split; [ | exact Fu].
  destruct w; [simpl in Lw; lia | discriminate].
Qed.


Lemma capital_word_truthy (s : string) : capital_word s -> truthy s = true.
Proof.
  intros [N _]. destruct s; [exfalso; apply N; reflexivity | reflexivity].
Qed.

(** Parsed tokens are never the empty string. *)
Lemma parse_swap_query_truthy (query from_token to_token : string)
  (amount : option PyFloat.float) :
  parse_swap_query query = (Some from_token, Some to_token, amount) ->
  truthy from_token = true /\ truthy to_token = true.
Proof.
  unfold parse_swap_query.
  destruct (search token_pattern query) as [m | ] eqn:E.
  - intro H. injection H as <- <- _.
    split; apply capital_word_truthy; apply (directional_token query m); auto.
  - pose proof (ticker_capital_word (upper query)) as T.
    destruct (findall ticker_pattern (upper query)) as [ | t0 [ | t1 l]];
      [destruct (search amount_pattern query); discriminate
      | destruct (search amount_pattern query); discriminate | ].
    assert (C0 : truthy t0 = true)
      by (apply capital_word_truthy, T; left; reflexivity).
    assert (C1 : truthy t1 = true)
      by (apply capital_word_truthy, T; right; left; reflexivity).
    destruct (search amount_pattern query) as [am | ];
      [destruct (String.eqb _ t0) | ];
      intro H; injection H as <- <- _; split; assumption.
Qed.



(** X10.  Once two tokens are parsed the swap history is searched with
    the text [Swap <from> to <to>], and an exception of that search leaves
    [get_best_swap_path]: no advice is generated. *)
Theorem get_best_swap_path_search_fails :
  forall (c : collaborators) (query from_token to_token : string)
         (amount : option PyFloat.float) (e : exn),
    parse_swap_query query = (Some from_token, Some to_token, amount) ->
    retrieve_similar_swaps c ("Swap " ++ from_token ++ " to " ++ to_token) = Raise e ->
    get_best_swap_path c query = Raise e.
Proof.
  intros c query from_token to_token amount e P R.
  destruct (parse_swap_query_truthy _ _ _ _ P) as [Tf Tt].
  unfold get_best_swap_path. rewrite P, Tf, Tt. cbn [negb orb].
  unfold VectorStore.get_optimal_swap_paths. rewrite R. reflexivity.
Qed.

Lemma get_best_swap_path_search_fails_witness :
  get_best_swap_path (Sample.disconnected "advice") "swap 1 ETH to USDC"
  = Raise (CollaboratorError "Pinecone connection error").
Proof.
  apply (get_best_swap_path_search_fails _ _ "ETH" "USDC"
           (Some (float_of_number "1"))); reflexivity.
Defined.

End ParsedTokens.

(** ** Regular expressions: the matcher misses no match *)

Section MatcherComplete.

Import PyStr Re Invariants.

Lemma star_runs_self (p : ascii -> bool) (s : list ascii) : In s (star_runs p s).
Proof.
  destruct s as [ | c s]; simpl; [left; reflexivity | ].
  destruct (p c); [apply in_or_app; right | ]; left; reflexivity.
Qed.

Lemma star_runs_complete (p : ascii -> bool) (w rest : list ascii) :
  Forall (fun c => p c = true) w -> In rest (star_runs p (w ++ rest)).
Proof.
  induction 1 as [ | c w Hc Hw IH]; simpl; [apply star_runs_self | ].
  rewrite Hc. apply in_or_app. left. exact IH.
Qed.

Lemma rep_runs_complete (p : ascii -> bool) (n : nat) :
  forall w rest, Forall (fun c => p c = true) w -> (n <= List.length w)%nat ->
  In rest (rep_runs p n (w ++ rest)).
Proof.
  induction n as [ | n IH]; intros w rest F L; simpl.
  - apply star_runs_complete. exact F.
  - destruct F as [ | c w Hc Hw]; [simpl in L; lia | ].
    simpl. rewrite Hc. apply IH; [exact Hw | simpl in L; lia].
Qed.

(** Every way of reading a text of the pattern at the head of the input
    is among the results of the matcher. *)
Lemma matches_complete (r : regex) :
  forall w rest g, lang r w -> exists g', In (rest, g') (matches r (w ++ rest) g).
Proof.
  induction r as [ | p | r1 IH1 r2 IH2 | r1 IH1 r2 IH2 | r1 IH1 | p n | i r1 IH1];
    intros w rest g L; simpl in L.
  - subst w. exists g. left. reflexivity.
  - destruct L as (c & -> & Hc). exists g. simpl. rewrite Hc. left. reflexivity.
  - destruct L as (w1 & w2 & -> & L1 & L2).
    destruct (IH1 w1 (w2 ++ rest)%list g L1) as (g1 & H1).
    destruct (IH2 w2 rest g1 L2) as (g2 & H2).
    exists g2. simpl. apply in_flat_map. exists ((w2 ++ rest)%list, g1).
    rewrite <- app_assoc. split; assumption.
  - destruct L as [L | L].
    + destruct (IH1 w rest g L) as (g' & H). exists g'. simpl.
      apply in_or_app. left. exact H.
    + destruct (IH2 w rest g L) as (g' & H). exists g'. simpl.
      apply in_or_app. right. exact H.
  - destruct L as [-> | L].
    + exists g. simpl. apply in_or_app. right. left. reflexivity.
    + destruct (IH1 w rest g L) as (g' & H). exists g'. simpl.
      apply in_or_app. left. exact H.
  - destruct L as [F Ln]. exists g. simpl.
    apply in_map_iff. exists rest. split; [reflexivity | ].
    apply rep_runs_complete; assumption.
  - destruct (IH1 w rest g L) as (g' & H).
    eexists. simpl. apply in_map_iff. exists (rest, g'). split; [reflexivity | exact H].
Qed.

(** A search fails only on a text without any occurrence of the pattern. *)
Lemma search_from_complete (r : regex) (w post : list ascii) :
  lang r w ->
  forall pre pos, search_from r pos (pre ++ w ++ post) <> None.
Proof.
  intros L. induction pre as [ | c pre IH]; intros pos.
  - destruct (matches_complete r w post [] L) as (g' & H).
    cbn [app]. destruct (w ++ post)%list as [ | c s] eqn:E; simpl;
      (destruct (matches r _ []) as [ | [rest g] l]; [destruct H | discriminate]).
  - cbn [app search_from].
    destruct (matches r (c :: pre ++ w ++ post) []) as [ | [rest g] l];
      [apply IH | discriminate].
Qed.

End MatcherComplete.

(** ** query_engine.py: the structured block of the advice *)

Section AdviceBlock.

Import PyStr Re QueryEngine Invariants.

Lemma json_block_lang (w : list ascii) :
  lang json_block w <-> exists mid, w = ("{"%char :: mid ++ ["}"%char])%list.
Proof.
  unfold json_block, chr. cbn [lang]. split.
  - intros (w1 & w2 & -> & (c & -> & Hc) & (w3 & w4 & -> & _ & (d & -> & Hd))).
    apply Ascii.eqb_eq in Hc, Hd. subst. exists w3. reflexivity.
  - intros (mid & ->). exists ["{"%char], (mid ++ ["}"%char])%list.
    split; [reflexivity | ]. split.
    + exists "{"%char. split; reflexivity.
    + exists mid, ["}"%char]. split; [reflexivity | ]. split.
      * split; [ | simpl; lia]. apply Forall_forall. reflexivity.
      * exists "}"%char. split; reflexivity.
Qed.

(** X11.  The decision is [None] exactly when the advice holds no opening
    brace that is followed, anywhere later and across lines, by a closing
    brace. *)
Theorem swap_details_of_none :
  forall advice : string,
    swap_details_of advice = Return None <->
    ~ exists pre mid post,
        chars advice = (pre ++ "{"%char :: mid ++ "}"%char :: post)%list.
Proof.
  intro advice. unfold swap_details_of, search. split.
  - intros H (pre & mid & post & E).
    destruct (search_from json_block 0 (chars advice)) as [m | ] eqn:S.
    + destruct (Json.loads (group0 m)); discriminate H.
    + revert S. rewrite E.
      replace (pre ++ "{"%char :: mid ++ "}"%char :: post)%list
        with (pre ++ ("{"%char :: mid ++ ["}"%char]) ++ post)%list
        by (cbn [app]; rewrite <- app_assoc; reflexivity).
      apply search_from_complete. apply json_block_lang. exists mid. reflexivity.
  - intros N.
    destruct (search_from json_block 0 (chars advice)) as [m | ] eqn:S; [ | reflexivity].
    exfalso. apply N.
    destruct (search_from_sound _ _ _ _ S) as (pre & w & E & L).
    apply json_block_lang in L. destruct L as (mid & ->).
    exists pre, mid, (m_rest m). rewrite E. cbn [app]. rewrite <- app_assoc. reflexivity.
Qed.

End AdviceBlock.

Section AdviceBlockExtent.

Import PyStr Re QueryEngine Invariants.

Lemma closing_none (g : captures) (post : list ascii) :
  ~ In "}"%char post -> flat_map (fun s => matches (chr "}") s g) (star_runs any_char post) = [].
Proof.
  induction post as [ | c post IH]; intro N; [reflexivity | ].
  cbn [star_runs any_char]. rewrite flat_map_app, IH.
  - cbn [flat_map app]. unfold chr. cbn [matches].
    destruct (Ascii.eqb_spec "}"%char c) as [E | E]; [ | reflexivity].
    exfalso. apply N. left. symmetry. exact E.
  - intro H. apply N. right. exact H.
Qed.

(** The greedy [.*] gives the characters back one at a time: the first
    result ends at the last closing brace. *)
Lemma closing_last (g : captures) (post : list ascii) :
  ~ In "}"%char post ->
  forall mid, exists l,
    flat_map (fun s => matches (chr "}") s g) (star_runs any_char (mid ++ "}"%char :: post)) = (post, g) :: l.
Proof.
  intros N. induction mid as [ | c mid IH].
  - cbn [app star_runs any_char]. rewrite flat_map_app, closing_none by exact N.
    cbn [flat_map app]. unfold chr. cbn [matches].
    rewrite Ascii.eqb_refl. eexists. reflexivity.
  - cbn [app star_runs any_char]. rewrite flat_map_app.
    destruct IH as (l & ->). eexists. reflexivity.
Qed.

Lemma json_block_at_brace (mid post : list ascii) :
  ~ In "}"%char post ->
  exists l, matches json_block ("{"%char :: mid ++ "}"%char :: post) [] = (post, []) :: l.
Proof.
  intro N. destruct (closing_last ([] : captures) post N mid) as (l & E).
  exists l. etransitivity; [ | exact E]. unfold json_block, chr. cbn [matches].
  rewrite Ascii.eqb_refl. cbn [flat_map fst snd]. rewrite app_nil_r.
  rewrite !flat_map_concat_map, map_map. reflexivity.
Qed.

Lemma json_block_not_here (c : ascii) (s : list ascii) :
  c <> "{"%char -> matches json_block (c :: s) [] = [].
Proof.
  intro N. unfold json_block, chr. cbn [matches].
  destruct (Ascii.eqb_spec "{"%char c) as [E | E]; [ | reflexivity].
  exfalso. apply N. symmetry. exact E.
Qed.

Lemma search_json_block (post : list ascii) (mid : list ascii) :
  ~ In "}"%char post ->
  forall pre pos, ~ In "{"%char pre ->
  exists m, search_from json_block pos (pre ++ "{"%char :: mid ++ "}"%char :: post) = Some m /\
            m_text m = ("{"%char :: mid ++ ["}"%char])%list.
Proof.
  intros Np. induction pre as [ | c pre IH]; intros pos N.
  - destruct (json_block_at_brace mid post Np) as (l & E).
    cbn [app search_from]. rewrite E. eexists. split; [reflexivity | ].
    cbn [m_text].
    replace ("{"%char :: mid ++ "}"%char :: post)%list
      with (("{"%char :: mid ++ ["}"%char]) ++ post)%list
      by (cbn [app]; rewrite <- app_assoc; reflexivity).
    apply firstn_consumed.
  - cbn [app search_from]. rewrite json_block_not_here.
    + apply IH. intro H. apply N. right. exact H.
    + intro H. apply N. left. exact H.
Qed.

(** X12.  The block handed to [json.loads] runs from the first opening
    brace of the advice to its last closing brace. *)
Theorem swap_details_of_extent :
  forall (advice : string) (pre mid post : list ascii),
    chars advice = (pre ++ "{"%char :: mid ++ "}"%char :: post)%list ->
    ~ In "{"%char pre ->
    ~ In "}"%char post ->
    swap_details_of advice
    = result_bind (Json.loads (str ("{"%char :: mid ++ ["}"%char])))
        (fun v => Return (Some v)).
Proof.
  intros advice pre mid post E Npre Npost.
  unfold swap_details_of, search. rewrite E.
  destruct (search_json_block post mid Npost pre 0%nat Npre) as (m & -> & T).
  unfold group0. rewrite T. reflexivity.
Qed.

Lemma swap_details_of_extent_witness :
  swap_details_of "so {} or {}"
  = result_bind (Json.loads "{} or {}") (fun v => Return (Some v)).
Proof.
  apply (swap_details_of_extent "so {} or {}"
           (chars "so ") (chars "} or {") []).
  - reflexivity.
  - cbn. intros [H | [H | [H | []]]]; discriminate H.
  - intros [].
Defined.

End AdviceBlockExtent.

(** ** data_fetcher.py: what ends the request loop *)

Section RequestLoop.

Import DataFetcher Invariants.

Ltac unroll_attempts :=
  unfold make_alchemy_request;
  cbv [max_retries Z.to_nat Pos.to_nat Pos.iter_op Nat.add];
  cbn [attempts];
  change (0 <? max_retries - 1) with true; change (0 + 1) with 1;
  change (1 <? max_retries - 1) with true; change (1 + 1) with 2;
  change (2 <? max_retries - 1) with false; change (2 + 1) with 3;
  change (2 ^ 0 * 2) with 2; change (2 ^ 1 * 2) with 4; change (2 ^ 2 * 2) with 8.

Ltac outcomes post :=
  destruct (post 0) as [e0 | err0 | j0] eqn:E0;
    [ | destruct (PyStr.contains "rate limit" (PyStr.lower err0)) eqn:R0 | ];
  (destruct (post 1) as [e1 | err1 | j1] eqn:E1;
    [ | destruct (PyStr.contains "rate limit" (PyStr.lower err1)) eqn:R1 | ]);
  (destruct (post 2) as [e2 | err2 | j2] eqn:E2;
    [ | destruct (PyStr.contains "rate limit" (PyStr.lower err2)) eqn:R2 | ]).


(** X14.  Whatever the attempts receive, the first attempt is made and
    the request sleeps at most 14 seconds in total; it does not sleep at
    all exactly when the first attempt is final (a reply, or an error
    reply that mentions no rate limit). *)
Theorem make_alchemy_request_waits :
  forall (post : Z -> outcome),
    let run := make_alchemy_request post in
    hd_error (snd run) = Some (Post 0) /\
    0 <= waited (snd run) <= 14 /\
    (waited (snd run) = 0 <-> retryable (post 0) = false).
Proof.
  intro post. unroll_attempts.
  outcomes post; cbn [fst snd hd_error waited retryable];
    (split; [reflexivity | ]); (split; [lia | ]);
    (split; intro H; first [lia | reflexivity | congruence]).
Qed.

End RequestLoop.

(** ** data_fetcher.py: the page size sent to the API *)

Section PageSize.

Import DataFetcher.

Lemma hex_round_trip_upto_1000 :
  forallb (fun k => match PyInt.int16 ("0x" ++ PyInt.format_x (Z.of_nat k)) with
                    | Return v => v =? Z.of_nat k
                    | Raise _ => false
                    end) (seq 1 1000) = true.
Proof. vm_compute. reflexivity. Qed.

(** X15.  Whatever number is asked for, the page size sent to the API is
    a hexadecimal literal that [int(_, 16)] reads back as the number
    clamped to 1..1000. *)
Theorem format_max_count_reads_back :
  forall max_results : Z,
    PyInt.int16 (format_max_count max_results)
    = Return (Z.max 1 (Z.min max_results 1000)).
Proof.
  intro n. unfold format_max_count.
  destruct (n >? 1000) eqn:E1.
  - apply Z.gtb_lt in E1. replace (Z.max 1 (Z.min n 1000)) with 1000 by lia.
    vm_compute. reflexivity.
  - destruct (n <=? 0) eqn:E2.
    + apply Z.leb_le in E2. replace (Z.max 1 (Z.min n 1000)) with 1 by lia.
      vm_compute. reflexivity.
    + apply Z.leb_gt in E2.
      assert (E1' : n <= 1000) by (destruct (Z.gtb_spec n 1000); [discriminate | lia]).
      replace (Z.max 1 (Z.min n 1000)) with n by lia.
      pose proof hex_round_trip_upto_1000 as H. rewrite forallb_forall in H.
      specialize (H (Z.to_nat n)). rewrite Z2Nat.id in H by lia.
      destruct (PyInt.int16 ("0x" ++ PyInt.format_x n)) as [v | e].
      * assert (Hv : (v =? n) = true) by (apply H; apply in_seq; lia).
        apply Z.eqb_eq in Hv. subst v. reflexivity.
      * assert (Hv : false = true) by (apply H; apply in_seq; lia). discriminate Hv.
Qed.

End PageSize.

(** ** vector_store.py: the groups of the ranker *)

Section Groups_of_the_ranker.

Import VectorStore Invariants.

Lemma upsert_keys (key : string) (init : path_stat) (f : path_stat -> path_stat)
  (d : stats_dict) :
  map fst (upsert key init f d)
  = if existsb (String.eqb key) (map fst d) then map fst d
    else (map fst d ++ [key])%list.
Proof.
  induction d as [ | [k v] d IH]; simpl; [reflexivity | ].
  rewrite (String.eqb_sym key k).
  destruct (String.eqb k key); simpl; [reflexivity | ].
  rewrite IH. destruct (existsb (String.eqb key) (map fst d)); reflexivity.
Qed.

Lemma upsert_total (key : string) (init : path_stat) (f : path_stat -> path_stat)
  (d : stats_dict) :
  (forall st, count (f st) = count st + 1) -> count init = 0 ->
  total_count (map snd (upsert key init f d)) = total_count (map snd d) + 1.
Proof.
  intros Hf Hi. induction d as [ | [k v] d IH]; simpl.
  - rewrite Hf, Hi. reflexivity.
  - destruct (String.eqb k key); simpl; [rewrite Hf | rewrite IH]; lia.
Qed.

Lemma add_swap_group (swap : swap_info) (st : path_stat) :
  count st = Z.of_nat (List.length (txHashes st)) ->
  (List.length (rates st) <= List.length (txHashes st))%nat ->
  group_ok (add_swap swap st) /\ key_of (add_swap swap st) = key_of st /\
  In (txHash swap) (txHashes (add_swap swap st)).
Proof.
  intros Hc Hr. unfold group_ok, key_of, add_swap. cbn.
  rewrite length_app. cbn [List.length].
  repeat split.
  - lia.
  - lia.
  - destruct (PyFloat.ltb PyFloat.zero (swapRate swap));
      [rewrite length_app; cbn [List.length] | ]; lia.
  - apply in_or_app. right. left. reflexivity.
Qed.

Lemma upsert_grouped (swap : swap_info) (d : stats_dict) :
  Forall (fun kv => fst kv = key_of (snd kv) /\ group_ok (snd kv)) d ->
  Forall (fun kv => fst kv = key_of (snd kv) /\ group_ok (snd kv)) (record_swap d swap) /\
  exists st, In (swap_key swap, st) (record_swap d swap) /\ In (txHash swap) (txHashes st).
Proof.
  unfold record_swap. fold (swap_key swap).
  induction 1 as [ | [k v] d [Hk Hv] Hd [IH1 IH2]]; simpl.
  - destruct (add_swap_group swap (new_stat (path swap) (dex swap))) as (G & K & T);
      [reflexivity | simpl; lia | ].
    split.
    + constructor; [ | constructor]. split; [ | exact G]. cbn [fst snd]. rewrite K. reflexivity.
    + eexists. split; [left; reflexivity | exact T].
  - destruct (String.eqb_spec k (swap_key swap)) as [E | E].
    + destruct Hv as (Hc & _ & Hr).
      destruct (add_swap_group swap v Hc Hr) as (G & K & T).
      split.
      * constructor; [ | exact Hd]. cbn [fst snd] in *. rewrite K. split; [exact Hk | exact G].
      * exists (add_swap swap v). split; [left; rewrite E; reflexivity | exact T].
    + split.
      * constructor; [split; assumption | exact IH1].
      * destruct IH2 as (st & Hin & T). exists st. split; [right; exact Hin | exact T].
Qed.

Lemma upsert_keeps (swap : swap_info) (d : stats_dict) (k : string) (h : string) :
  (exists st, In (k, st) d /\ In h (txHashes st)) ->
  exists st, In (k, st) (record_swap d swap) /\ In h (txHashes st).
Proof.
  unfold record_swap. fold (swap_key swap).
  induction d as [ | [k' v] d IH]; intros (st & Hin & T); [destruct Hin | ].
  simpl. destruct Hin as [Hin | Hin].
  - injection Hin as -> ->.
    destruct (String.eqb k (swap_key swap)).
    + exists (add_swap swap st). split; [left; reflexivity | ].
      cbn. apply in_or_app. left. exact T.
    + exists st. split; [left; reflexivity | exact T].
  - destruct (String.eqb k' (swap_key swap)).
    + exists st. split; [right; exact Hin | exact T].
    + destruct IH as (st' & Hin' & T'); [exists st; split; assumption | ].
      exists st'. split; [right; exact Hin' | exact T'].
Qed.

Lemma record_swap_nodup (swap : swap_info) (d : stats_dict) :
  NoDup (map fst d) -> NoDup (map fst (record_swap d swap)).
Proof.
  intro N. unfold record_swap. rewrite upsert_keys.
  destruct (existsb _ (map fst d)) eqn:E; [exact N | ].
  apply NoDup_app; [exact N | constructor; [intros [] | constructor] | ].
  intros x Hx [Ex | []].
  assert (existsb (String.eqb x) (map fst d) = true)
    by (apply existsb_exists; exists x; split; [exact Hx | apply String.eqb_refl]).
  subst x. congruence.
Qed.

Lemma record_swaps_grouped (swaps : list swap_info) :
  forall d,
    NoDup (map fst d) ->
    Forall (fun kv => fst kv = key_of (snd kv) /\ group_ok (snd kv)) d ->
    let d' := fold_left record_swap swaps d in
    NoDup (map fst d') /\
    Forall (fun kv => fst kv = key_of (snd kv) /\ group_ok (snd kv)) d' /\
    total_count (map snd d') = total_count (map snd d) + Z.of_nat (List.length swaps) /\
    forall swap, In swap swaps ->
      exists st, In (swap_key swap, st) d' /\ In (txHash swap) (txHashes st).
Proof.
  induction swaps as [ | swap swaps IH]; intros d N F; cbn [fold_left List.length].
  - repeat split; [exact N | exact F | cbn; lia | intros swap []].
  - destruct (upsert_grouped swap d F) as (F' & Hs).
    destruct (IH (record_swap d swap) (record_swap_nodup swap d N) F') as (N2 & F2 & T2 & I2).
    repeat split; [exact N2 | exact F2 | | ].
    + rewrite T2. unfold record_swap.
      rewrite upsert_total; [lia | intro st; reflexivity | reflexivity].
    + intros s [<- | Hin]; [ | exact (I2 s Hin)].
      clear - Hs. revert Hs. generalize (record_swap d swap). 
      induction swaps as [ | s' swaps IHs]; intros d0 H; [exact H | ].
      cbn [fold_left]. apply IHs. apply upsert_keeps. exact H.
Qed.

(** The averaging pass changes [avgRate] only. *)
Lemma set_average_same (st st' : path_stat) :
  set_average st = Return st' ->
  key_of st' = key_of st /\ count st' = count st /\
  rates st' = rates st /\ txHashes st' = txHashes st.
Proof.
  unfold set_average. destruct (rates st) as [ | r l] eqn:E.
  - intro H. injection H as <-. repeat split; auto.
  - destruct (PyFloat.of_int _) as [n | e]; [ | discriminate]. cbn [result_bind].
    destruct (PyFloat.div _ n) as [avg | e]; [ | discriminate]. cbn [result_bind].
    intro H. injection H as <-. unfold key_of. cbn. repeat split; auto.
Qed.

Lemma set_averages_same (l : list path_stat) :
  forall l', set_averages l = Return l' ->
  map key_of l' = map key_of l /\
  total_count l' = total_count l /\
  (Forall group_ok l -> Forall group_ok l') /\
  (forall k h, (exists st, In st l /\ key_of st = k /\ In h (txHashes st)) ->
               exists st, In st l' /\ key_of st = k /\ In h (txHashes st)).
Proof.
  induction l as [ | st l IH]; intros l' H; cbn [set_averages] in H.
  - injection H as <-. repeat split; auto.
  - destruct (set_average st) as [st' | e] eqn:E1; [ | discriminate]. cbn [result_bind] in H.
    destruct (set_averages l) as [l'' | e] eqn:E2; [ | discriminate]. cbn [result_bind] in H.
    injection H as <-.
    destruct (set_average_same _ _ E1) as (K & C & R & T).
    destruct (IH l'' eq_refl) as (IK & IC & IG & II).
    repeat split.
    + cbn [map]. rewrite K, IK. reflexivity.
    + cbn [total_count]. rewrite C, IC. reflexivity.
    + intro F. inversion F as [ | ? ? Gst Gl]; subst. constructor; [ | exact (IG Gl)].
      unfold group_ok in *. rewrite C, R, T. exact Gst.
    + intros k h (s & [<- | Hin] & Hk & Hh).
      * exists st'. split; [left; reflexivity | ]. rewrite K, T. split; assumption.
      * destruct (II k h) as (s' & Hin' & Hk' & Hh'); [exists s; repeat split; assumption | ].
        exists s'. split; [right; exact Hin' | split; assumption].
Qed.

Lemma insert_desc_perm (x : path_stat) (l : list path_stat) :
  Permutation (insert_desc x l) (x :: l).
Proof.
  induction l as [ | y l IH]; simpl; [reflexivity | ].
  destruct (key_lt x y); [ | reflexivity].
  rewrite IH. apply perm_swap.
Qed.

(** Sorting rearranges the groups and neither drops nor repeats one. *)
Lemma sorted_desc_perm (l : list path_stat) : Permutation (sorted_desc l) l.
Proof.
  induction l as [ | x l IH]; simpl; [reflexivity | ].
  rewrite insert_desc_perm, IH. reflexivity.
Qed.

Lemma total_count_perm (l l' : list path_stat) :
  Permutation l l' -> total_count l = total_count l'.
Proof.
  induction 1; cbn [total_count]; lia.
Qed.

(** X16.  The ranker puts every match of the similarity search into
    exactly one group: the groups have distinct keys [<path> on <dex>],
    each group counts its transaction hashes and holds at least one, no
    group has more rates than transactions, the counts add up to the
    number of matches, and the hash of each match is in the group of its
    key. *)
Theorem get_optimal_swap_paths_groups :
  forall (retrieve : similarity_search) (from_token to_token : string)
         (swaps : list swap_info) (paths : list path_stat),
    retrieve ("Swap " ++ from_token ++ " to " ++ to_token) = Return swaps ->
    get_optimal_swap_paths retrieve from_token to_token = Return paths ->
    NoDup (map key_of paths) /\
    Forall group_ok paths /\
    total_count paths = Z.of_nat (List.length swaps) /\
    forall swap, In swap swaps ->
      exists st, In st paths /\ key_of st = swap_key swap /\
                 In (txHash swap) (txHashes st).
Proof.
  intros retrieve from_token to_token swaps paths R H.
  unfold get_optimal_swap_paths in H. rewrite R in H. cbn [result_bind] in H.
  destruct (record_swaps_grouped swaps [] (NoDup_nil _) (Forall_nil _)) as (N & F & T & I).
  cbv zeta in N, F, T, I.
  set (d := fold_left record_swap swaps []) in *.
  destruct (set_averages (map snd d)) as [values | e] eqn:E; [ | discriminate].
  cbn [result_bind] in H. injection H as <-.
  destruct (set_averages_same _ _ E) as (SK & SC & SG & SI).
  pose proof (sorted_desc_perm values) as P.
  assert (Hk : map key_of (map snd d) = map fst d).
  { rewrite map_map. apply map_ext_in. intros kv Hin.
    rewrite Forall_forall in F. symmetry. apply (F kv Hin). }
  repeat split.
  - apply (Permutation_NoDup (l := map key_of values)).
    + apply Permutation_map. symmetry. exact P.
    + rewrite SK, Hk. exact N.
  - apply (Permutation_Forall (x := values)); [symmetry; exact P | ].
    apply SG. apply Forall_map. revert F. apply Forall_impl. intros kv [_ G]. exact G.
  - rewrite (total_count_perm _ _ P), SC, T. cbn. lia.
  - intros swap Hin. destruct (I swap Hin) as (st & Hd & Hh).
    destruct (SI (swap_key swap) (txHash swap)) as (st' & Hin' & Hk' & Hh').
    + exists st. split; [apply in_map_iff; exists (swap_key swap, st); split; [reflexivity | exact Hd] | ].
      split; [ | exact Hh].
      rewrite Forall_forall in F. symmetry. apply (F _ Hd).
    + exists st'. split; [ | split; assumption].
      apply (Permutation_in (l := values)); [symmetry; exact P | exact Hin'].
Qed.

Lemma get_optimal_swap_paths_groups_witness :
  exists paths,
    get_optimal_swap_paths (fun _ => Return Sample.matches) "ETH" "USDC" = Return paths /\
    NoDup (map key_of paths) /\ total_count paths = 15.
Proof.
  destruct (get_optimal_swap_paths (fun _ => Return Sample.matches) "ETH" "USDC")
    as [paths | e] eqn:E; [ | vm_compute in E; discriminate E].
  exists paths. split; [reflexivity | ].
  destruct (get_optimal_swap_paths_groups (fun _ => Return Sample.matches) "ETH" "USDC"
              Sample.matches paths eq_refl E) as (N & _ & T & _).
  split; [exact N | exact T].
Defined.

End Groups_of_the_ranker.

(** ** swap_executor.py: loading a wallet *)

Section WalletLoading.

Import PyStr SwapExecutor Calls.


(** X18.  When the key opens a wallet and the balance cannot be read,
    [load_wallet] returns [None] as for a failure, yet the wallet is
    set: the executor goes on with it. *)
Theorem load_wallet_unreadable_balance :
  forall (self : SwapExecutor) (w3 : Web3) (from_key : string -> result wallet)
         (t : terminal) (k : string) (acct : wallet) (e : exn),
    truthy k = true ->
    from_key k = Return acct ->
    get_balance w3 (w_address acct) = Raise e ->
    load_wallet self w3 from_key t (Some k)
    = ((Return None, [GetBalance (w_address acct)]), with_account self acct).
Proof.
  intros self w3 from_key t k acct e T F B.
  unfold load_wallet. rewrite T. cbv beta iota zeta. rewrite T. cbn [negb]. rewrite F.
  unfold try_except, bind, call, ret. rewrite B. reflexivity.
Qed.

Lemma load_wallet_unreadable_balance_witness :
  load_wallet Sample.read_only Sample.unreachable Sample.from_key Sample.nobody (Some "0x01")
  = ((Return None, [GetBalance (w_address Sample.alice)]),
     with_account Sample.read_only {| w_address := w_address Sample.alice; w_key := "0x01" |}).
Proof.
  apply (load_wallet_unreadable_balance _ _ _ _ _ _ (CollaboratorError "connection lost"));
    reflexivity.
Defined.

(** X19.  A key that the prompt returns starts with [0x], and has 66
    characters unless the user confirmed with [y] or [Y]; typing the key
    without the prefix gives the same as typing it with the prefix. *)
Theorem prompt_for_private_key_normalises :
  forall t : terminal,
    (forall key, fst (prompt_for_private_key t) = Some key ->
       starts_with (chars "0x") (chars key) = true /\
       (String.length key = 66%nat \/ lower (typed_confirmation t) = "y")) /\
    (starts_with (chars "0x") (chars (typed_key t)) = false ->
     prompt_for_private_key t
     = prompt_for_private_key {| typed_key := "0x" ++ typed_key t;
                                 typed_confirmation := typed_confirmation t |}).
Proof.
  intro t. split.
  - intros key. unfold prompt_for_private_key.
    set (k := if negb (starts_with (chars "0x") (chars (typed_key t)))
              then "0x" ++ typed_key t else typed_key t).
    assert (Hk : starts_with (chars "0x") (chars k) = true).
    { subst k. destruct (starts_with (chars "0x") (chars (typed_key t))) eqn:S;
        cbn [negb]; [exact S | ].
      reflexivity. }
    destruct (Nat.eqb_spec (String.length k) 66) as [L | L]; cbn [negb].
    + cbn [fst]. intro H. injection H as <-. split; [exact Hk | left; exact L].
    + destruct (String.eqb_spec (lower (typed_confirmation t)) "y") as [Y | Y]; cbn [negb fst];
        intro H; [ | discriminate H].
      injection H as <-. split; [exact Hk | right; exact Y].
  - intro S. unfold prompt_for_private_key. cbn [typed_key typed_confirmation].
    rewrite S. cbn [negb].
    replace (starts_with (chars "0x") (chars ("0x" ++ typed_key t))) with true
      by reflexivity.
    reflexivity.
Qed.

End WalletLoading.

(** ** api/main.py: what the endpoints answer *)

Section Endpoints.

Import PyStr SwapExecutor Calls.

Lemma execute_swap_dry_calls (self : SwapExecutor) (w3 : Web3)
  (from_token to_token : string) (amount : PyFloat.float) (dex_name : string)
  (slippage : PyFloat.float) (dest : option string) :
  calls_all (fun ev => is_submission ev = false)
    (SwapExecutor.execute_swap self w3 from_token to_token amount dex_name slippage dest
       (Some true)).
Proof.
  unfold SwapExecutor.execute_swap.
  destruct (account self) as [acct | ]; [ | constructor].
  apply calls_all_bind.
  - eapply calls_all_weaken; [ | apply generate_swap_transaction_calls].
    intros ev H. destruct ev; try reflexivity; discriminate H.
  - intros sd _. constructor.
Qed.

Lemma execute_swap_dry_result (self : SwapExecutor) (w3 : Web3)
  (from_token to_token : string) (amount : PyFloat.float) (dex_name : string)
  (slippage : PyFloat.float) (dest : option string) (r : option string) :
  fst (SwapExecutor.execute_swap self w3 from_token to_token amount dex_name slippage dest
         (Some true)) = Return r ->
  r = Some "test_tx_hash".
Proof.
  unfold SwapExecutor.execute_swap.
  destruct (account self) as [acct | ]; [ | discriminate].
  intro H. apply bind_returns in H. destruct H as (sd & _ & H).
  injection H as <-. reflexivity.
Qed.

(** X20.  [POST /execute-swap] fails with status 500 only, and only for an
    exception of the executor; it reports success only with a non-empty
    transaction hash.  With [test_mode] on, the default of the endpoint,
    nothing is signed, sent or awaited, whatever the mode of the executor
    itself, and an answer is the success with the hash [test_tx_hash]. *)
Theorem execute_swap_endpoint :
  forall (swap_executor : SwapExecutor) (w3 : Web3) (swap_details : Api.SwapDetails)
         (test_mode : bool),
    let run := Api.execute_swap swap_executor w3 swap_details test_mode in
    (forall e, fst run = Api.Fail e ->
       Api.status_code e = 500 /\ exists x, Api.cause e = Api.Exn x) /\
    (forall a, fst run = Api.Answer a -> Api.success a = true ->
       exists h, Api.tx_hash a = Some h /\ truthy h = true) /\
    (test_mode = true ->
       Forall (fun ev => is_submission ev = false) (snd run) /\
       forall a, fst run = Api.Answer a ->
         a = {| Api.success := true; Api.tx_hash := Some "test_tx_hash";
                Api.message := "Swap executed successfully!" |}).
Proof.
  intros swap_executor w3 d test_mode. unfold Api.execute_swap.
  pose proof (execute_swap_dry_calls swap_executor w3 (Api.from_token d) (Api.to_token d)
                (Api.amount d) (Api.dex d) (Api.slippage d) None) as Hc.
  pose proof (execute_swap_dry_result swap_executor w3 (Api.from_token d) (Api.to_token d)
                (Api.amount d) (Api.dex d) (Api.slippage d) None) as Hr.
  destruct (SwapExecutor.execute_swap swap_executor w3 (Api.from_token d) (Api.to_token d)
              (Api.amount d) (Api.dex d) (Api.slippage d) None (Some test_mode))
    as [[[h | ] | x] t] eqn:E.
  - destruct (truthy h) eqn:T; cbn [fst snd]; split; [ | split | | split].
    + intros e H; discriminate H.
    + intros a H _. injection H as <-. exists h. split; [reflexivity | exact T].
    + intros ->. rewrite E in Hc, Hr. split; [exact Hc | ].
      intros a H. injection H as <-.
      specialize (Hr (Some h) eq_refl). injection Hr as ->. reflexivity.
    + intros e H; discriminate H.
    + intros a H S. injection H as <-. discriminate S.
    + intros ->. rewrite E in Hc, Hr. split; [exact Hc | ].
      intros a H. specialize (Hr (Some h) eq_refl). injection Hr as ->. discriminate T.
  - cbn [fst snd]. split; [ | split].
    + intros e H; discriminate H.
    + intros a H S. injection H as <-. discriminate S.
    + intros ->. rewrite E in Hc, Hr. split; [exact Hc | ].
      intros a H. specialize (Hr None eq_refl). discriminate Hr.
  - cbn [fst snd]. split; [ | split].
    + intros e H. injection H as <-. split; [reflexivity | exists x; reflexivity].
    + intros a H; discriminate H.
    + intros ->. rewrite E in Hc. split; [exact Hc | ].
      intros a H; discriminate H.
Qed.

(** X21.  [POST /connect-wallet] never answers with status 400: the 400 it
    raises for a wallet that could not be loaded is caught by its own
    handler and becomes a 500.  A success means a wallet is set on a
    fresh executor; and once the fresh executor exists it replaces the
    previous one even when the wallet could not be loaded. *)
Theorem connect_wallet_answers :
  forall (new_executor : bool -> result SwapExecutor) (w3 : Web3)
         (from_key : string -> result wallet) (t : terminal)
         (swap_executor : SwapExecutor) (private_key : string) (test_mode : bool),
    let run := Api.connect_wallet new_executor w3 from_key t swap_executor private_key
                 test_mode in
    (forall e, fst (fst run) = Api.Fail e -> Api.status_code e = 500) /\
    (forall a, fst (fst run) = Api.Answer a ->
       exists fresh acct, new_executor test_mode = Return fresh /\
                          snd (fst run) = with_account fresh acct) /\
    (forall e, new_executor test_mode = Raise e ->
       snd (fst run) = swap_executor /\ snd run = []) /\
    (forall fresh, new_executor test_mode = Return fresh ->
       snd (fst run) = fresh \/ exists acct, snd (fst run) = with_account fresh acct).
Proof.
  intros new_executor w3 from_key t swap_executor private_key test_mode.
  unfold Api.connect_wallet.
  destruct (new_executor test_mode) as [fresh | e0].
  2:{ cbn [fst snd]. split; [ | split; [ | split]].
      - intros e H. injection H as <-. reflexivity.
      - intros a H; discriminate H.
      - intros e _. split; reflexivity.
      - intros fresh H; discriminate H. }
  unfold load_wallet.
  set (key := if truthy private_key then Some private_key
              else fst (prompt_for_private_key t)).
  destruct key as [k | ].
  2:{ unfold raise. cbn [fst snd]. split; [ | split; [ | split]].
      - intros e H. injection H as <-. reflexivity.
      - intros a H; discriminate H.
      - intros e H; discriminate H.
      - intros f H. injection H as <-. left. reflexivity. }
  destruct (negb (truthy k)).
  { unfold raise. cbn [fst snd]. split; [ | split; [ | split]].
    - intros e H. injection H as <-. reflexivity.
    - intros a H; discriminate H.
    - intros e H; discriminate H.
    - intros f H. injection H as <-. left. reflexivity. }
  destruct (from_key k) as [acct | e1].
  2:{ unfold ret. cbn [fst snd]. split; [ | split; [ | split]].
      - intros e H. injection H as <-. reflexivity.
      - intros a H; discriminate H.
      - intros e H; discriminate H.
      - intros f H. injection H as <-. left. reflexivity. }
  unfold try_except, bind, call, ret, raise.
  destruct (get_balance w3 (w_address acct)) as [b | e2];
    [destruct ((b <? 0) || (unlimited <? b));
       [ | destruct (truthy (w_address acct))] | ];
    cbn [fst snd]; (split; [ | split; [ | split]]);
    try (intros e H; injection H as <-; reflexivity);
    try (intros a H; discriminate H);
    try (intros e H; discriminate H);
    try (intros f H; injection H as <-; right; exists acct; reflexivity).
  intros a H. exists fresh, acct. split; reflexivity.
Qed.

End Endpoints.
